(** * The foss4g notebooks: raster datasets, band statistics, clip and reproject

    A shallow embedding of the three notebooks of the repository:

    - the "Rasterio datasets and NumPy arrays" notebook and the "Reading
      satellite data" notebook (band parsing, band statistics, pixel lookup);
    - [notebooks/3_clip_and_reproject.ipynb] (clip to an area of interest,
      reproject to EPSG:4326).

    The notebooks are straight-line Python that calls rasterio, fiona and
    numpy.  Values the notebooks hold are modelled concretely (datasets,
    metadata dictionaries, arrays); the routines of the libraries that compute
    (mask, calculate_default_transform, reproject, show, file access) are an
    interface, [RasterLib], the notebook is parametrised by. *)

From Stdlib Require Import ZArith QArith Qround List String Lia Lqa.
From stdpp Require Import base gmap list strings.

Close Scope Q_scope.
Open Scope string_scope.
Open Scope list_scope.
Open Scope Z_scope.

(** ** Python exceptions and results *)

Record Exc := mkExc { exc_class : string; exc_msg : string }.

(** A Python expression either raises or yields a value. *)
Definition Res (A : Type) : Type := Exc + A.

#[global] Instance res_ret : MRet Res := fun A a => inr a.
#[global] Instance res_bind : MBind Res := fun A B k m =>
  match m with
  | inl e => inl e
  | inr a => k a
  end.

Definition raise {A} (e : Exc) : Res A := inl e.

(** [for x in xs: body x], collecting what each iteration produces. *)
Fixpoint forR {A B} (xs : list A) (body : A → Res B) : Res (list B) :=
  match xs with
  | [] => mret []
  | x :: xs' => b ← body x; bs ← forR xs' body; mret (b :: bs)
  end.

(** [range(a, b)] *)
Definition py_range (a b : Z) : list Z :=
  map (fun i => a + Z.of_nat i) (seq 0 (Z.to_nat (b - a))).

(** ** Data model *)

(** A band is a two-dimensional array of pixel values, the full read a
    three-dimensional one indexed (band, row, column).  Pixel values are
    integers (the scene is an integer-typed PlanetScope product). *)
Definition Grid : Type := list (list Z).
Definition Array3 : Type := list Grid.

(** [a.shape] of a three-dimensional array. *)
Definition shape3 (a : Array3) : Z * Z * Z :=
  (Z.of_nat (length a),
   Z.of_nat (length (hd [] a)),
   Z.of_nat (length (hd [] (hd [] a)))).

Definition shape2 (g : Grid) : Z * Z :=
  (Z.of_nat (length g), Z.of_nat (length (hd [] g))).

(** The six coefficients of an affine transform:
    x = a*col + b*row + c, y = d*col + e*row + f. *)
Record Affine := mkAffine {
  af_a : Q; af_b : Q; af_c : Q;
  af_d : Q; af_e : Q; af_f : Q }.

Record BoundingBox := mkBounds {
  bb_left : Q; bb_bottom : Q; bb_right : Q; bb_top : Q }.

Definition CRS : Type := string.

(** Modelled from the spec: the raster dataset of the data model, "a grid of
    pixel values (one array per spectral band), an affine transform, a
    coordinate reference system descriptor, and metadata (band count,
    dimensions, pixel data type, nodata value)".  rasterio's dataset class is
    not part of the repository. *)
Record Dataset := mkDataset {
  driver : string;
  dtype : string;
  nodata : option Q;
  width : Z;
  height : Z;
  crs : CRS;
  transform : Affine;
  bands : list Grid }.

(** [satdat.count] *)
Definition count (ds : Dataset) : Z := Z.of_nat (length (bands ds)).

(** [satdat.indexes]: band indexes count from one. *)
Definition indexes (ds : Dataset) : list Z := py_range 1 (count ds + 1).

(** Modelled from the spec: [satdat.read()], the dataset "read fully" into one
    array per band. *)
Definition read (ds : Dataset) : Array3 := bands ds.

Definition IndexError (msg : string) : Exc := mkExc "IndexError" msg.
Definition ValueError (msg : string) : Exc := mkExc "ValueError" msg.

(** Modelled from the spec: [satdat.read(bidx)], the dataset read "per-band";
    an index outside 1..count raises. *)
Definition read_band (ds : Dataset) (bidx : Z) : Res Grid :=
  if decide (1 ≤ bidx ≤ count ds) then
    match bands ds !! Z.to_nat (bidx - 1) with
    | Some g => mret g
    | None => raise (IndexError "band index out of range")
    end
  else raise (IndexError "band index out of range").

(** [satdat.bounds]: the corner coordinates the transform gives the grid. *)
Definition bounds (ds : Dataset) : BoundingBox :=
  let t := transform ds in
  {| bb_left := af_c t;
     bb_bottom := (af_f t + af_e t * inject_Z (height ds))%Q;
     bb_right := (af_c t + af_a t * inject_Z (width ds))%Q;
     bb_top := af_f t |}.

Definition det (t : Affine) : Q := (af_a t * af_e t - af_b t * af_d t)%Q.

(** The inverse transform applied to a world point: fractional (col, row). *)
Definition inv_apply (t : Affine) (x y : Q) : Q * Q :=
  let dx := (x - af_c t)%Q in
  let dy := (y - af_f t)%Q in
  ((af_e t * dx - af_b t * dy) / det t,
   (af_a t * dy - af_d t * dx) / det t)%Q.

(** Modelled from the spec: [satdat.index(x, y, op)], the inverse of the
    "mapping from pixel (row, column) indices to spatial (x, y) coordinates",
    rounded by [op]; rasterio returns the pair (row, col). *)
Definition index (ds : Dataset) (x y : Q) (op : Q → Z) : Res (Z * Z) :=
  if Qeq_bool (det (transform ds)) 0 then
    raise (mkExc "TransformNotInvertibleError" "Determinant is zero")
  else
    let '(fcol, frow) := inv_apply (transform ds) x y in
    mret (op frow, op fcol).

(** ** numpy reductions and indexing *)

Definition zero_size (op : string) : Exc :=
  ValueError ("zero-size array to reduction operation " +:+ op +:+
              " which has no identity").

Definition np_min (xs : list Z) : Res Z :=
  match xs with
  | [] => raise (zero_size "minimum")
  | x :: xs' => mret (fold_left Z.min xs' x)
  end.

Definition np_max (xs : list Z) : Res Z :=
  match xs with
  | [] => raise (zero_size "maximum")
  | x :: xs' => mret (fold_left Z.max xs' x)
  end.

(** [data.min()], [data.max()] of a band and of the full read. *)
Definition min2 (g : Grid) : Res Z := np_min (concat g).
Definition max2 (g : Grid) : Res Z := np_max (concat g).
Definition min3 (a : Array3) : Res Z := np_min (concat (concat a)).
Definition max3 (a : Array3) : Res Z := np_max (concat (concat a)).

(** One axis of an integer index: negative indices count from the end. *)
Definition np_axis (n i : Z) : Res nat :=
  if decide (0 ≤ i < n) then mret (Z.to_nat i)
  else if decide (- n ≤ i < 0) then mret (Z.to_nat (i + n))
  else raise (IndexError "index out of bounds for axis").

(** [g[i, j]] *)
Definition getitem2 (g : Grid) (i j : Z) : Res Z :=
  r ← np_axis (fst (shape2 g)) i;
  c ← np_axis (snd (shape2 g)) j;
  match g !! r with
  | Some line =>
      match line !! c with
      | Some v => mret v
      | None => raise (IndexError "index out of bounds for axis")
      end
  | None => raise (IndexError "index out of bounds for axis")
  end.

(** ** The array notebooks *)

(** What a cell prints, one constructor per format string. *)
Inductive Line :=
| BandLine (bidx mn mx : Z)        (* "Band {bidx} min {min} max {max}" *)
| OverallLine (mn mx : Z)          (* "Overall min/max: {} {}" *)
| PixelLine (label : string) (v : Z).  (* "Red: {}", "Green: {}", ... *)

(** [blue, green, red, nir = satdat.read()] *)
Definition unpack4 {A} (xs : list A) : Res (A * A * A * A) :=
  match xs with
  | [b; g; r; n] => mret (b, g, r, n)
  | _ :: _ :: _ :: _ :: _ :: _ =>
      raise (ValueError "too many values to unpack (expected 4)")
  | _ => raise (ValueError "not enough values to unpack")
  end.

Definition parse_bands (satdat : Dataset) : Res (Grid * Grid * Grid * Grid) :=
  unpack4 (read satdat).

(** The cell "Output a min & max pixel value in each band" followed by the
    overall min/max of the entire dataset. *)
Definition band_stats (satdat : Dataset) : Res (list Line) :=
  per ← forR (indexes satdat) (fun bidx =>
           data ← read_band satdat bidx;
           mn ← min2 data;
           mx ← max2 data;
           mret (BandLine bidx mn mx));
  let data := read satdat in
  mn ← min3 data;
  mx ← max3 data;
  mret (per ++ [OverallLine mn mx]).

(** The world point of the pixel-lookup cell: [satdat.bounds.left - 10000]
    and [satdat.bounds.top + 10000]. *)
Definition x_coord (satdat : Dataset) : Q :=
  (bb_left (bounds satdat) - inject_Z 10000)%Q.
Definition y_coord (satdat : Dataset) : Q :=
  (bb_top (bounds satdat) + inject_Z 10000)%Q.

(** The pixel-lookup cell.  [index] yields (row, col); the notebook binds the
    pair to the names [col, row] in that order and indexes the bands with
    [[row, col]].  The cell's two indices are returned with what it prints. *)
Definition pixel_lookup (satdat : Dataset) (blue green red nir : Grid)
  : Res (Z * Z * list Line) :=
  '(col, row) ← index satdat (x_coord satdat) (y_coord satdat) Qfloor;
  r ← getitem2 red row col;
  g ← getitem2 green row col;
  b ← getitem2 blue row col;
  n ← getitem2 nir row col;
  mret (row, col,
        [PixelLine "Red" r; PixelLine "Green" g;
         PixelLine "Blue" b; PixelLine "NIR" n]).

(** The numbers a printed line carries. *)
Definition line_min (l : Line) : Z :=
  match l with
  | BandLine _ mn _ => mn
  | OverallLine mn _ => mn
  | PixelLine _ v => v
  end.

Definition line_max (l : Line) : Z :=
  match l with
  | BandLine _ _ mx => mx
  | OverallLine _ mx => mx
  | PixelLine _ v => v
  end.

(** What the statistics cell prints for band [bidx]. *)
Definition band_line (satdat : Dataset) (bidx : Z) (line : Line) : Prop :=
  ∃ data mn mx,
    read_band satdat bidx = inr data ∧ min2 data = inr mn ∧
    max2 data = inr mx ∧ line = BandLine bidx mn mx.

(** A north-up raster: no rotation, x grows with the column, y falls with
    the row. *)
Definition north_up (t : Affine) : Prop :=
  af_b t = 0%Q ∧ af_d t = 0%Q ∧ (0 < af_a t)%Q ∧ (af_e t < 0)%Q.

(** The pixel the cell's comment asks for, "10km east and 10km south of the
    upper left corner". *)
Definition intended_pixel (satdat : Dataset) : Res (Z * Z) :=
  index satdat (bb_left (bounds satdat) + inject_Z 10000)%Q
               (bb_top (bounds satdat) - inject_Z 10000)%Q Qfloor.

(** ** Metadata dictionaries *)

(** The values a dataset's [meta] dictionary holds. *)
Inductive PyVal :=
| VStr (s : string)
| VInt (n : Z)
| VFloat (q : Q)
| VNone
| VAffine (t : Affine)
| VCRS (c : CRS).

Abbreviation Meta := (gmap string PyVal).

(** [ds.meta]: a fresh dictionary of the dataset's creation options. *)
Definition meta (ds : Dataset) : Meta :=
  <["driver" := VStr (driver ds)]>
  (<["dtype" := VStr (dtype ds)]>
  (<["nodata" := from_option VFloat VNone (nodata ds)]>
  (<["width" := VInt (width ds)]>
  (<["height" := VInt (height ds)]>
  (<["count" := VInt (count ds)]>
  (<["crs" := VCRS (crs ds)]>
  (<["transform" := VAffine (transform ds)]> ∅))))))).

(** [d.copy()] and [d.update(other)]: keys of [other] win. *)
Definition dict_copy (d : Meta) : Meta := d.
Definition dict_update (d other : Meta) : Meta := other ∪ d.

(** ** Vector features *)

Record Geometry := mkGeometry {
  geom_type : string;
  coordinates : list (list (Q * Q)) }.

Record Feature := mkFeature {
  feature_id : string;
  geometry : Geometry }.

(** ** Dataset objects, the world, and what the notebook does to it *)

Inductive Mode := ModeR | ModeW.

(** A dataset object as a Python variable holds it: its identity, the file it
    was opened on, and the attributes fixed when it was opened. *)
Record Handle := mkHandle {
  h_id : nat;
  h_name : string;
  h_mode : Mode;
  h_ds : Dataset }.

(** The attributes the notebook reads off a dataset object. *)
Definition h_meta (h : Handle) : Meta := meta (h_ds h).
Definition h_crs (h : Handle) : CRS := crs (h_ds h).
Definition h_transform (h : Handle) : Affine := transform (h_ds h).
Definition h_width (h : Handle) : Z := width (h_ds h).
Definition h_height (h : Handle) : Z := height (h_ds h).
Definition h_count (h : Handle) : Z := count (h_ds h).
Definition h_bounds (h : Handle) : BoundingBox := bounds (h_ds h).

(** [rasterio.band(ds, bidx)] *)
Definition Band : Type := Handle * Z.
Definition band (ds : Handle) (bidx : Z) : Band := (ds, bidx).

(** The calls the notebook makes, with the values it passes. *)
Inductive Event :=
| EOpen (name : string)
| ECreate (name : string) (kwargs : Meta)
| EClose (h : Handle)
| EShow (h : Handle)
| EFionaOpen (name : string)
| EFionaClose (name : string)
| EMask (h : Handle) (shapes : list Geometry) (crop : bool)
| EWrite (h : Handle) (arr : Array3)
| EPrint (shape : Z * Z * Z)
| ECalc (src_crs : CRS) (dst_crs : string) (w h : Z) (b : BoundingBox)
| EReproject (source destination : Band)
    (src_transform : Affine) (src_crs : CRS)
    (dst_transform : Affine) (dst_crs : string)
| ERaised (e : Exc).

Record World := mkWorld {
  files : gmap string Dataset;        (* raster files on disk *)
  next_id : nat;                      (* identity of the next object *)
  open_handles : gset nat;            (* datasets not yet closed *)
  pending : gmap nat (list Grid);     (* band data held by a 'w' dataset *)
  trace : list Event }.

Definition record_events (w : World) (evs : list Event) : World :=
  mkWorld (files w) (next_id w) (open_handles w) (pending w) (trace w ++ evs).

Definition set_pending (w : World) (id : nat) (bs : list Grid) : World :=
  mkWorld (files w) (next_id w) (open_handles w) (<[id := bs]> (pending w))
          (trace w).

Definition set_bands (ds : Dataset) (bs : list Grid) : Dataset :=
  mkDataset (driver ds) (dtype ds) (nodata ds) (width ds) (height ds)
            (crs ds) (transform ds) bs.

(** A cell is a computation on the world that raises or yields a value; the
    world is kept either way. *)
Definition M (A : Type) : Type := World → Res A * World.

#[global] Instance m_ret : MRet M := fun A a w => (inr a, w).
#[global] Instance m_bind : MBind M := fun A B k m w =>
  match m w with
  | (inl e, w') => (inl e, w')
  | (inr a, w') => k a w'
  end.

(** A call into a library: the call is recorded, and so is the exception if
    the library raises one. *)
Definition lib {A} (ev : Event) (r : Res A) : M A := fun w =>
  match r with
  | inr a => (inr a, record_events w [ev])
  | inl e => (inl e, record_events w [ev; ERaised e])
  end.

(** [print(shape)]: the value goes to the cell's output. *)
Definition py_print (shape : Z * Z * Z) : M unit := fun w =>
  (inr tt, record_events w [EPrint shape]).

(** A new dataset object; a dataset opened for writing starts with the band
    data the library created it with. *)
Definition attach (name : string) (mode : Mode) (ds : Dataset) : M Handle :=
  fun w =>
    let h := mkHandle (next_id w) name mode ds in
    (inr h,
     mkWorld (files w) (S (next_id w)) ({[next_id w]} ∪ open_handles w)
             (match mode with
              | ModeW => <[next_id w := bands ds]> (pending w)
              | ModeR => pending w
              end)
             (trace w)).

(** [ds.close()]: a dataset opened for writing reaches the disk. *)
Definition close (h : Handle) : M unit := fun w =>
  (inr tt,
   mkWorld (match h_mode h with
            | ModeW => <[h_name h :=
                          set_bands (h_ds h) (pending w !!! h_id h)]> (files w)
            | ModeR => files w
            end)
           (next_id w) (open_handles w ∖ {[h_id h]}) (pending w)
           (trace w ++ [EClose h])).

(** [with open as h: body]: the dataset is closed when the block is left,
    by its end or by an exception, which then goes on. *)
Definition with_ {A} (open : M Handle) (body : Handle → M A)
  : M (Handle * A) := fun w =>
  match open w with
  | (inl e, w1) => (inl e, w1)
  | (inr h, w1) =>
      let '(r, w2) := body h w1 in
      let '(_, w3) := close h w2 in
      (match r with inl e => inl e | inr a => inr (h, a) end, w3)
  end.

(** [for x in xs: body] *)
Fixpoint for_ {A} (xs : list A) (body : A → M unit) : M unit :=
  match xs with
  | [] => mret tt
  | x :: xs' => body x;; for_ xs' body
  end.

(** The routines of rasterio and fiona the notebook calls.  None of them is
    part of the repository; each may raise. *)
Class RasterLib := {
  rio_open : gmap string Dataset → string → Res Dataset;
  rio_create : string → Meta → Res Dataset;
  rio_write : Dataset → Array3 → Res (list Grid);
  rio_show : Dataset → Res unit;
  fiona_open : string → Res (list Feature);
  rio_mask : Dataset → list Geometry → bool → Res (Array3 * Affine);
  rio_calculate_default_transform :
    CRS → string → Z → Z → BoundingBox → Res (Affine * Z * Z);
  rio_reproject :
    Dataset → Z → Dataset → Z → Affine → CRS → Affine → string → Res Grid }.

(** The notebook's global names once its last cell has run. *)
Record Globals := mkGlobals {
  g_satdat : Handle;
  g_aoi : list Geometry;
  g_img : Handle;
  g_clipped : Array3;
  g_meta : Meta;
  g_dst : Handle;
  g_clipped_img : Handle;
  g_transform : Affine;
  g_width : Z;
  g_height : Z;
  g_metadata : Meta;
  g_reprojected : Handle;
  g_reproj : Handle }.

Section Notebook.
Context {L : RasterLib}.

(** [rasterio.open(name)] *)
Definition rasterio_open (name : string) : M Handle := fun w =>
  (ds ← lib (EOpen name) (rio_open (files w) name);
   attach name ModeR ds) w.

(** [rasterio.open(name, 'w', **kwargs)] *)
Definition rasterio_create (name : string) (kwargs : Meta) : M Handle :=
  ds ← lib (ECreate name kwargs) (rio_create name kwargs);
  attach name ModeW ds.

(** [show(ds)] *)
Definition show (ds : Handle) : M unit :=
  lib (EShow ds) (rio_show (h_ds ds)).

(** [with fiona.open(name) as f: body] *)
Definition with_fiona {A} (name : string) (body : list Feature → A) : M A :=
  f ← lib (EFionaOpen name) (fiona_open name);
  lib (EFionaClose name) (inr (body f)).

(** [mask(img, shapes, crop=crop)] *)
Definition mask (img : Handle) (shapes : list Geometry) (crop : bool)
  : M (Array3 * Affine) :=
  lib (EMask img shapes crop) (rio_mask (h_ds img) shapes crop).

(** [dst.write(arr)] *)
Definition write (dst : Handle) (arr : Array3) : M unit := fun w =>
  match lib (EWrite dst arr) (rio_write (h_ds dst) arr) w with
  | (inl e, w') => (inl e, w')
  | (inr bs, w') => (inr tt, set_pending w' (h_id dst) bs)
  end.

(** [calculate_default_transform(src_crs, dst_crs, width, height, *bounds)] *)
Definition calculate_default_transform (src_crs : CRS) (dst_crs : string)
    (w h : Z) (b : BoundingBox) : M (Affine * Z * Z) :=
  lib (ECalc src_crs dst_crs w h b)
      (rio_calculate_default_transform src_crs dst_crs w h b).

(** [reproject(source=, destination=, src_transform=, src_crs=,
    dst_transform=, dst_crs=)]: the resampled band lands in the destination
    dataset. *)
Definition reproject (source destination : Band)
    (src_transform : Affine) (src_crs : CRS)
    (dst_transform : Affine) (dst_crs : string) : M unit := fun w =>
  match lib (EReproject source destination src_transform src_crs
                        dst_transform dst_crs)
            (rio_reproject (h_ds (fst source)) (snd source)
                           (h_ds (fst destination)) (snd destination)
                           src_transform src_crs dst_transform dst_crs) w with
  | (inl e, w') => (inl e, w')
  | (inr g, w') =>
      let id := h_id (fst destination) in
      (inr tt,
       set_pending w' id
         (<[Z.to_nat (snd destination - 1) := g]> (pending w' !!! id)))
  end.

Definition target_crs : string := "EPSG:4326".

(** The cells of [3_clip_and_reproject.ipynb], top to bottom. *)
Definition notebook : M Globals :=
  let image_file := "example.tif" in
  satdat ← rasterio_open image_file;
  show satdat;;
  aoi ← with_fiona "aoi.geojson" (fun f => map geometry f);
  '(img, (clipped, transform)) ←
    with_ (rasterio_open "example.tif") (fun img => mask img aoi true);
  py_print (shape3 clipped);;
  let meta := dict_copy (h_meta img) in
  let meta :=
    dict_update meta
      (<["transform" := VAffine transform]>
       (<["height" := VInt (shape3 clipped).1.2]>
        (<["width" := VInt (shape3 clipped).2]> ∅))) in
  '(dst, _) ←
    with_ (rasterio_create "clipped.tif" meta)
          (fun dst => write dst clipped);
  clipped_img ← rasterio_open "clipped.tif";
  show clipped_img;;
  '(transform, width, height) ←
    calculate_default_transform
      (h_crs clipped_img) target_crs
      (h_width clipped_img) (h_height clipped_img)
      (h_bounds clipped_img);
  let metadata := dict_copy (h_meta clipped_img) in
  let metadata :=
    dict_update metadata
      (<["crs" := VStr target_crs]>
       (<["transform" := VAffine transform]>
        (<["width" := VInt width]>
         (<["height" := VInt height]> ∅)))) in
  '(reprojected, _) ←
    with_ (rasterio_create "clipped_4326.tif" metadata)
          (fun reprojected =>
             for_ (py_range 1 (h_count clipped_img + 1))
                  (fun bidx =>
                     reproject (band clipped_img bidx)
                               (band reprojected bidx)
                               (h_transform clipped_img)
                               (h_crs clipped_img)
                               transform target_crs));
  reproj ← rasterio_open "clipped_4326.tif";
  show reproj;;
  mret (mkGlobals satdat aoi img clipped meta dst clipped_img
                  transform width height metadata reprojected reproj).

End Notebook.

(** ** Reading a run off the world *)

(** A dataset object is open while its identity is among the open ones. *)
Definition is_open (w : World) (h : Handle) : Prop :=
  h_id h ∈ open_handles w.

(** No dataset object is left open once the run is over. *)
Definition handles_scoped (w' : World) : Prop := open_handles w' = ∅.

(** The output files a run creates, with the creation options passed. *)
Definition creations (evs : list Event) : list (string * Meta) :=
  omap (fun ev => match ev with
                  | ECreate name kwargs => Some (name, kwargs)
                  | _ => None
                  end) evs.

(** The geometry an event is handed, if any. *)
Definition event_shapes (ev : Event) : option (list Geometry) :=
  match ev with
  | EMask _ shapes _ => Some shapes
  | _ => None
  end.

(** The vector files a run loads. *)
Definition vector_loads (evs : list Event) : list string :=
  omap (fun ev => match ev with
                  | EFionaOpen name => Some name
                  | _ => None
                  end) evs.

(** The dataset objects a run closes, in order. *)
Definition closed_handles (evs : list Event) : list Handle :=
  omap (fun ev => match ev with
                  | EClose h => Some h
                  | _ => None
                  end) evs.

(** The resampling calls of a run. *)
Definition reprojections (evs : list Event) : list Event :=
  List.filter (fun ev => match ev with
                         | EReproject _ _ _ _ _ _ => true
                         | _ => false
                         end) evs.

Definition is_raise (ev : Event) : Prop :=
  match ev with
  | ERaised _ => True
  | _ => False
  end.

(** Leaving a [with] block. *)
Definition scope_exit (ev : Event) : Prop :=
  match ev with
  | EClose _ => True
  | _ => False
  end.

(** A computation hands on what the library raises: the events it adds hold
    no exception when it ends normally; when it ends with [e], they hold
    [e] once, raised by a library call, nothing raised before it and only
    scope exits after it. *)
Definition propagates {A} (m : M A) : Prop :=
  ∀ w, ∃ evs,
    trace (m w).2 = trace w ++ evs ∧
    match (m w).1 with
    | inr _ => Forall (fun ev => ¬ is_raise ev) evs
    | inl e =>
        ∃ pre post,
          evs = pre ++ ERaised e :: post ∧
          Forall (fun ev => ¬ is_raise ev) pre ∧ Forall scope_exit post
    end.

(** The stages of the clip-and-reproject pipeline.  An output file is written
    when the dataset opened for writing on it is closed. *)
Inductive Stage :=
| OpenRaster
| ComputeMask
| WriteClipped
| ComputeTransform
| Reproject
| WriteReprojected.

Definition stage_of (ev : Event) : option Stage :=
  match ev with
  | EOpen name =>
      if decide (name = "example.tif") then Some OpenRaster else None
  | EMask _ _ _ => Some ComputeMask
  | ECalc _ _ _ _ _ => Some ComputeTransform
  | EReproject _ _ _ _ _ _ => Some Reproject
  | EClose h =>
      match h_mode h with
      | ModeW =>
          if decide (h_name h = "clipped.tif") then Some WriteClipped
          else if decide (h_name h = "clipped_4326.tif")
               then Some WriteReprojected
               else None
      | ModeR => None
      end
  | _ => None
  end.

Definition stages (evs : list Event) : list Stage := omap stage_of evs.

(** ** A small library instance and a small scene

    A concrete [RasterLib] on which the notebook runs to the end: files are
    looked up in the world, [mask] crops to the bounding box of the shapes,
    [calculate_default_transform] rescales metres to degrees on the same
    grid, [reproject] copies the source band. *)
Module Toy.

Definition RasterioIOError (msg : string) : Exc := mkExc "RasterioIOError" msg.
Definition TypeError (msg : string) : Exc := mkExc "TypeError" msg.
Definition CRSError (msg : string) : Exc := mkExc "CRSError" msg.

Definition open (fs : gmap string Dataset) (name : string) : Res Dataset :=
  match fs !! name with
  | Some ds => mret ds
  | None => raise (RasterioIOError (name +:+ ": No such file or directory"))
  end.

Definition zeros (c h w : Z) : list Grid :=
  replicate (Z.to_nat c) (replicate (Z.to_nat h) (replicate (Z.to_nat w) 0)).

Definition create (name : string) (kw : Meta) : Res Dataset :=
  match kw !! "driver", kw !! "dtype", kw !! "width", kw !! "height",
        kw !! "count", kw !! "transform" with
  | Some (VStr drv), Some (VStr dt), Some (VInt w), Some (VInt h),
    Some (VInt c), Some (VAffine t) =>
      mret (mkDataset drv dt
              (match kw !! "nodata" with Some (VFloat q) => Some q | _ => None end)
              w h
              (match kw !! "crs" with
               | Some (VCRS c) => c
               | Some (VStr s) => s
               | _ => ""
               end)
              t (zeros c h w))
  | _, _, _, _, _, _ => raise (TypeError "missing creation option")
  end.

Definition write_bands (ds : Dataset) (arr : Array3) : Res (list Grid) :=
  if decide (shape3 arr = (count ds, height ds, width ds)) then mret arr
  else raise (ValueError "Source shape is inconsistent with given indexes").

Definition show (ds : Dataset) : Res unit := mret tt.

Definition qmin (x y : Q) : Q := if Qle_bool x y then x else y.
Definition qmax (x y : Q) : Q := if Qle_bool x y then y else x.

Definition clamp (lo hi x : Z) : Z := Z.max lo (Z.min hi x).

(** Crop to the bounding box of all the shapes' vertices. *)
Definition mask (ds : Dataset) (shapes : list Geometry) (crop : bool)
  : Res (Array3 * Affine) :=
  match concat (concat (map coordinates shapes)) with
  | [] => raise (ValueError "Input shapes do not overlap raster.")
  | (x0, y0) :: pts =>
      if crop then
        let minx := fold_left qmin (map fst pts) x0 in
        let maxx := fold_left qmax (map fst pts) x0 in
        let miny := fold_left qmin (map snd pts) y0 in
        let maxy := fold_left qmax (map snd pts) y0 in
        let t := transform ds in
        let '(fc0, fr0) := inv_apply t minx maxy in
        let '(fc1, fr1) := inv_apply t maxx miny in
        let c0 := clamp 0 (width ds) (Qfloor fc0) in
        let r0 := clamp 0 (height ds) (Qfloor fr0) in
        let c1 := clamp 0 (width ds) (Qceiling fc1) in
        let r1 := clamp 0 (height ds) (Qceiling fr1) in
        if decide (c0 < c1 ∧ r0 < r1) then
          let window (g : Grid) : Grid :=
            map (fun row => take (Z.to_nat (c1 - c0)) (drop (Z.to_nat c0) row))
                (take (Z.to_nat (r1 - r0)) (drop (Z.to_nat r0) g)) in
          mret (map window (bands ds),
                mkAffine (af_a t) (af_b t)
                  (Qred (af_c t + af_a t * inject_Z c0 + af_b t * inject_Z r0))
                  (af_d t) (af_e t)
                  (Qred (af_f t + af_d t * inject_Z c0 + af_e t * inject_Z r0)))
        else raise (ValueError "Input shapes do not overlap raster.")
      else mret (bands ds, transform ds)
  end.

(** Metres to (toy) degrees, same grid. *)
Definition calculate_default_transform (src_crs : CRS) (dst_crs : string)
    (w h : Z) (b : BoundingBox) : Res (Affine * Z * Z) :=
  if decide (dst_crs = "EPSG:4326") then
    if decide (0 < w ∧ 0 < h) then
      let k := inject_Z 100000 in
      mret (mkAffine (Qred ((bb_right b - bb_left b) / inject_Z w / k)) 0
                     (Qred (bb_left b / k))
                     0 (Qred ((bb_bottom b - bb_top b) / inject_Z h / k))
                     (Qred (bb_top b / k)),
            w, h)
    else raise (ValueError "Invalid dimensions")
  else raise (CRSError ("Unsupported CRS: " +:+ dst_crs)).

Definition reproject (src : Dataset) (sb : Z) (dst : Dataset) (db : Z)
    (src_transform : Affine) (src_crs : CRS)
    (dst_transform : Affine) (dst_crs : string) : Res Grid :=
  read_band src sb.

Definition aoi_polygon : Geometry :=
  mkGeometry "Polygon"
    [[(inject_Z 505000, inject_Z 3985000); (inject_Z 515000, inject_Z 3985000);
      (inject_Z 515000, inject_Z 3995000); (inject_Z 505000, inject_Z 3995000);
      (inject_Z 505000, inject_Z 3985000)]].

Definition fiona (name : string) : Res (list Feature) :=
  if decide (name = "aoi.geojson") then mret [mkFeature "0" aoi_polygon]
  else raise (mkExc "DriverError" (name +:+ ": No such file or directory")).

#[global] Instance library : RasterLib := {|
  rio_open := open;
  rio_create := create;
  rio_write := write_bands;
  rio_show := show;
  fiona_open := fiona;
  rio_mask := mask;
  rio_calculate_default_transform := calculate_default_transform;
  rio_reproject := reproject |}.

(** A band whose pixel at (row, col) is [base + 10*row + col]. *)
Definition ramp (base : Z) (h w : nat) : Grid :=
  map (fun r => map (fun c => base + 10 * Z.of_nat r + Z.of_nat c) (seq 0 w))
      (seq 0 h).

(** A 4-band (blue, green, red, NIR) scene in UTM, 5 rows by 6 columns of
    5 km pixels, upper left corner at (500000, 4000000). *)
Definition example_tif : Dataset :=
  mkDataset "GTiff" "uint16" (Some (inject_Z 0)) 6 5 "EPSG:32610"
    (mkAffine (inject_Z 5000) 0 (inject_Z 500000)
              0 (inject_Z (-5000)) (inject_Z 4000000))
    [ramp 100 5 6; ramp 200 5 6; ramp 300 5 6; ramp 400 5 6].

Definition world : World :=
  mkWorld {["example.tif" := example_tif]} 0 ∅ ∅ [].

(** The same world without the scene. *)
Definition empty_world : World := mkWorld ∅ 0 ∅ ∅ [].

(** A scene that lies far from the area of interest, and its world. *)
Definition far_tif : Dataset :=
  mkDataset "GTiff" "uint16" (Some (inject_Z 0)) 6 5 "EPSG:32610"
    (mkAffine (inject_Z 5000) 0 (inject_Z 0)
              0 (inject_Z (-5000)) (inject_Z 4000000))
    [ramp 100 5 6; ramp 200 5 6; ramp 300 5 6; ramp 400 5 6].

Definition far_world : World :=
  mkWorld {["example.tif" := far_tif]} 0 ∅ ∅ [].

End Toy.

(** ** The band cells again: per-band parsing, extremes, floating-point pixels *)

(** The alternative the band-parsing cell gives in its comment, "the slightly
    less efficient" [blue = satdat.read(1)], [green = satdat.read(2)],
    [red = satdat.read(3)], [nir = satdat.read(4)]. *)
Definition parse_bands_per_band (satdat : Dataset)
  : Res (Grid * Grid * Grid * Grid) :=
  blue ← read_band satdat 1;
  green ← read_band satdat 2;
  red ← read_band satdat 3;
  nir ← read_band satdat 4;
  mret (blue, green, red, nir).

(** The pixel type of the raster is an integer type: the rasters whose
    pixels a [Grid] holds. *)
Definition integer_dtype (ds : Dataset) : Prop :=
  dtype ds ∈ ["uint8"; "int8"; "uint16"; "int16";
              "uint32"; "int32"; "uint64"; "int64"].
















(** ** The image-size cell, and what every run keeps *)

(** A dataset whose bands have the dimensions its header gives. *)
Definition conforms (ds : Dataset) : Prop :=
  Forall (fun g : Grid =>
            Z.of_nat (length g) = height ds ∧
            Forall (fun line : list Z => Z.of_nat (length line) = width ds) g)
         (bands ds).

(** The cell "examine the width & height of the image (in pixels)":
    [w = blue.shape[0]], [h = blue.shape[1]]; the pair it prints as
    "width: {w}, height: {h}". *)
Definition image_size (blue : Grid) : Z * Z :=
  let w := (shape2 blue).1 in
  let h := (shape2 blue).2 in
  (w, h).

(** The pixel of a band at a row and a column counted from zero. *)
Definition pixel_at (g : Grid) (i j : Z) : option Z :=
  if decide (0 ≤ i ∧ 0 ≤ j) then
    line ← g !! Z.to_nat i; line !! Z.to_nat j
  else None.

(** The files the clip-and-reproject notebook writes. *)
Definition output_names : list string := ["clipped.tif"; "clipped_4326.tif"].

(** A computation leaves every file outside [names] as it was and removes no
    file. *)
Definition writes_only {A} (names : list string) (m : M A) : Prop :=
  ∀ w,
    (∀ name, name ∉ names → files (m w).2 !! name = files w !! name) ∧
    dom (files w) ⊆ dom (files (m w).2).

(** An [open] call: when it succeeds the new dataset object has the next
    identity and is open; when it raises no dataset is opened. *)
Definition fresh_open (open : M Handle) : Prop :=
  ∀ w,
    match open w with
    | (inr h, w1) =>
        h_id h = next_id w ∧ next_id w1 = S (next_id w) ∧
        open_handles w1 = {[next_id w]} ∪ open_handles w
    | (inl _, w1) => open_handles w1 = open_handles w
    end.

(** A computation creates [k] dataset objects when it ends normally, and
    however it ends leaves open, beside those open before, at most the
    objects [still n] where [n] is the first new identity. *)
Definition leaves_open {A} (k : nat) (still : nat → gset nat) (m : M A)
  : Prop :=
  ∀ w,
    open_handles (m w).2 ⊆ open_handles w ∪ still (next_id w) ∧
    (∀ a, (m w).1 = inr a → next_id (m w).2 = (next_id w + k)%nat).

(** ** What the notebook relies on from the libraries *)

(** Opening a file that exists yields the dataset the file holds. *)
Definition opens_what_is_stored {L : RasterLib} : Prop :=
  ∀ fs name ds, fs !! name = Some ds → rio_open fs name = inr ds.

(** A dataset created for writing has the header its creation options ask
    for. *)
Definition honours_creation_options {L : RasterLib} : Prop :=
  ∀ name kw ds,
    rio_create name kw = inr ds →
    (∀ v, kw !! "driver" = Some (VStr v) → driver ds = v) ∧
    (∀ v, kw !! "dtype" = Some (VStr v) → dtype ds = v) ∧
    (∀ q, kw !! "nodata" = Some (VFloat q) → nodata ds = Some q) ∧
    (kw !! "nodata" = Some VNone → nodata ds = None) ∧
    (∀ c, kw !! "count" = Some (VInt c) → 0 ≤ c → count ds = c) ∧
    (∀ v, kw !! "width" = Some (VInt v) → width ds = v) ∧
    (∀ v, kw !! "height" = Some (VInt v) → height ds = v) ∧
    (∀ t, kw !! "transform" = Some (VAffine t) → transform ds = t).

(** Writing an array keeps the number of bands of the dataset. *)
Definition write_keeps_count {L : RasterLib} : Prop :=
  ∀ ds arr stored,
    rio_write ds arr = inr stored → length stored = length (bands ds).

(** * Results *)

(** ** Results, ranges and loops *)

Lemma res_bind_inr {A B} (m : Res A) (k : A → Res B) (b : B) :
  m ≫= k = inr b → ∃ a, m = inr a ∧ k a = inr b.
Proof. destruct m as [e|a]; [discriminate | eauto]. Qed.

Lemma py_range_succ (a b : Z) :
  a < b → py_range a b = a :: py_range (a + 1) b.
Proof.
  intros Hab. unfold py_range.
  replace (Z.to_nat (b - a)) with (S (Z.to_nat (b - (a + 1)))) by lia.
  cbn [seq map]. f_equal; [lia |].
  rewrite <- seq_shift, map_map. apply map_ext. intros i. lia.
Qed.

Lemma py_range_empty (a b : Z) : b ≤ a → py_range a b = [].
Proof.
  intros Hab. unfold py_range.
  replace (Z.to_nat (b - a)) with 0%nat by lia. reflexivity.
Qed.

Lemma elem_of_py_range (a b i : Z) : In i (py_range a b) ↔ a ≤ i < b.
Proof.
  unfold py_range. rewrite in_map_iff. split.
  - intros (k & <- & Hk). apply in_seq in Hk. lia.
  - intros Hi. exists (Z.to_nat (i - a)). split; [lia |].
    apply in_seq. lia.
Qed.

(** ** Band reads *)

Lemma read_band_lookup (ds : Dataset) (i : Z) :
  1 ≤ i ≤ count ds →
  ∃ g, read ds !! Z.to_nat (i - 1) = Some g ∧ read_band ds i = inr g.
Proof.
  intros Hi. unfold read_band, read.
  destruct (decide (1 ≤ i ≤ count ds)) as [_|Hn]; [| contradiction].
  destruct (bands ds !! Z.to_nat (i - 1)) as [g|] eqn:Hg.
  - eauto.
  - apply lookup_ge_None in Hg. unfold count in Hi. lia.
Qed.

Lemma read_band_at (ds : Dataset) (k : nat) (g : Grid) :
  bands ds !! k = Some g → read_band ds (Z.of_nat k + 1) = inr g.
Proof.
  intros Hk. pose proof (lookup_lt_Some _ _ _ Hk) as Hlt.
  unfold read_band.
  destruct (decide _) as [_|Hn]; [| unfold count in Hn; lia].
  replace (Z.to_nat (Z.of_nat k + 1 - 1)) with k by lia.
  rewrite Hk. reflexivity.
Qed.

(** The band loop visits the bands of the dataset in order. *)
Lemma forR_read_band {B} (ds : Dataset) (body : Z → Grid → Res B) (out : list B) :
  forR (indexes ds) (fun bidx => data ← read_band ds bidx; body bidx data)
    = inr out →
  Forall2 (fun bidx line =>
             ∃ data, read_band ds bidx = inr data ∧ body bidx data = inr line)
          (indexes ds) out.
Proof.
  generalize (indexes ds). intros l. revert out.
  induction l as [|i l IH]; intros out H; cbn in H.
  - injection H as <-. constructor.
  - apply res_bind_inr in H as (b & Hb & H).
    apply res_bind_inr in H as (bs & Hbs & H). injection H as <-.
    apply res_bind_inr in Hb as (data & Hd & Hb).
    constructor; eauto.
Qed.

Lemma indexes_bands (ds : Dataset) :
  Forall2 (fun bidx g => read_band ds bidx = inr g) (indexes ds) (bands ds).
Proof.
  apply Forall2_same_length_lookup_2.
  - unfold indexes, py_range, count. rewrite length_map, length_seq. lia.
  - intros k i g Hi Hg. unfold indexes, py_range in Hi.
    rewrite list_lookup_fmap in Hi.
    destruct (seq 0 _ !! k) as [j|] eqn:Hj; [| discriminate].
    apply lookup_seq in Hj as [-> _]. cbn in Hi. injection Hi as <-.
    rewrite <- (read_band_at ds k g Hg). f_equal. lia.
Qed.

(** ** Reductions *)

Section Extremes.
Variable op : Z → Z → Z.
Variable le : Z → Z → Prop.
Hypothesis le_refl : ∀ x, le x x.
Hypothesis le_trans : ∀ x y z, le x y → le y z → le x z.
Hypothesis op_l : ∀ x y, le (op x y) x.
Hypothesis op_r : ∀ x y, le (op x y) y.

(** A fold of a bound-taking operation is a bound of the start value and of
    every element. *)
Lemma fold_left_bound (xs : list Z) (a : Z) :
  le (fold_left op xs a) a ∧ ∀ x, In x xs → le (fold_left op xs a) x.
Proof.
  revert a. induction xs as [|y xs IH]; intros a; cbn [fold_left].
  - split; [apply le_refl | intros x []].
  - destruct (IH (op a y)) as [Ha Hxs]. split.
    + eapply le_trans; [exact Ha | apply op_l].
    + intros x [<- | Hx]; [| auto].
      eapply le_trans; [exact Ha | apply op_r].
Qed.

End Extremes.

Lemma np_min_le (xs : list Z) (m : Z) :
  np_min xs = inr m → ∀ x, In x xs → m ≤ x.
Proof.
  destruct xs as [|a xs]; [discriminate |]. intros [= <-] x Hx.
  destruct (fold_left_bound Z.min Z.le Z.le_refl Z.le_trans
              Z.le_min_l Z.le_min_r xs a) as [Ha Hxs].
  destruct Hx as [<- | Hx]; auto.
Qed.

Lemma np_max_ge (xs : list Z) (m : Z) :
  np_max xs = inr m → ∀ x, In x xs → x ≤ m.
Proof.
  destruct xs as [|a xs]; [discriminate |]. intros [= <-] x Hx.
  destruct (fold_left_bound Z.max (fun x y => y ≤ x)
              Z.le_refl (fun x y z H1 H2 => Z.le_trans _ _ _ H2 H1)
              Z.le_max_l Z.le_max_r xs a) as [Ha Hxs].
  destruct Hx as [<- | Hx]; auto.
Qed.

Lemma np_min_In (xs : list Z) (m : Z) : np_min xs = inr m → In m xs.
Proof.
  destruct xs as [|a xs]; [discriminate |]. intros [= <-].
  revert a. induction xs as [|y xs IH]; intros a; cbn [fold_left].
  - left. reflexivity.
  - destruct (IH (Z.min a y)) as [H | H].
    + rewrite <- H.
      destruct (Z.min_spec a y) as [[_ ->] | [_ ->]]; cbn; auto.
    + right. right. exact H.
Qed.

Lemma np_max_In (xs : list Z) (m : Z) : np_max xs = inr m → In m xs.
Proof.
  destruct xs as [|a xs]; [discriminate |]. intros [= <-].
  revert a. induction xs as [|y xs IH]; intros a; cbn [fold_left].
  - left. reflexivity.
  - destruct (IH (Z.max a y)) as [H | H].
    + rewrite <- H.
      destruct (Z.max_spec a y) as [[_ ->] | [_ ->]]; cbn; auto.
    + right. right. exact H.
Qed.



(** Every band a band line is printed for is a band of the dataset. *)
Lemma read_band_In (ds : Dataset) (i : Z) (g : Grid) :
  read_band ds i = inr g → In g (bands ds).
Proof.
  unfold read_band. destruct (decide _); [| discriminate].
  destruct (bands ds !! _) as [g0|] eqn:Hg; [| discriminate].
  intros [= <-]. apply list_elem_of_In, list_elem_of_lookup. eauto.
Qed.

Lemma In_concat_join (g : Grid) (gs : list Grid) (x : Z) :
  In g gs → In x (concat g) → In x (concat (concat gs)).
Proof.
  intros Hg Hx. apply in_concat in Hx as (line & Hline & Hx).
  apply in_concat. exists line. split; [| exact Hx].
  apply in_concat. exists g. auto.
Qed.


(** What a printing statistics cell has computed. *)
Lemma band_stats_inv (satdat : Dataset) (out : list Line) :
  band_stats satdat = inr out →
  ∃ per mn mx,
    out = per ++ [OverallLine mn mx] ∧
    Forall2 (band_line satdat) (indexes satdat) per ∧
    min3 (read satdat) = inr mn ∧ max3 (read satdat) = inr mx.
Proof.
  intros H. unfold band_stats in H.
  apply res_bind_inr in H as (per & Hper & H).
  apply res_bind_inr in H as (mn & Hmn & H).
  apply res_bind_inr in H as (mx & Hmx & H). injection H as <-.
  apply forR_read_band in Hper.
  exists per, mn, mx. repeat split; try assumption.
  eapply Forall2_impl; [exact Hper |].
  intros bidx line (data & Hd & Hb).
  apply res_bind_inr in Hb as (lo & Hlo & Hb).
  apply res_bind_inr in Hb as (hi & Hhi & Hb). injection Hb as <-.
  exists data, lo, hi. auto.
Qed.


(** A reduction of an array that holds a pixel yields a value. *)
Lemma np_min_nonempty (xs : list Z) : xs ≠ [] → ∃ m, np_min xs = inr m.
Proof. destruct xs; [congruence | cbn; eauto]. Qed.

Lemma np_max_nonempty (xs : list Z) : xs ≠ [] → ∃ m, np_max xs = inr m.
Proof. destruct xs; [congruence | cbn; eauto]. Qed.

Lemma forR_total {A B} (xs : list A) (body : A → Res B) :
  Forall (fun x => ∃ y, body x = inr y) xs → ∃ ys, forR xs body = inr ys.
Proof.
  induction 1 as [|x xs [y Hy] _ [ys Hys]]; cbn [forR].
  - eexists. reflexivity.
  - rewrite Hy. cbn. rewrite Hys. cbn. eauto.
Qed.

(** On a dataset with at least one band, every band holding a pixel, the
    statistics cell prints. *)
Lemma band_stats_prints (satdat : Dataset) :
  bands satdat ≠ [] → Forall (fun g => concat g ≠ []) (bands satdat) →
  ∃ out, band_stats satdat = inr out.
Proof.
  intros Hne Hall. unfold band_stats.
  destruct (forR_total (indexes satdat)
              (fun bidx => data ← read_band satdat bidx;
                           mn ← min2 data; mx ← max2 data;
                           mret (BandLine bidx mn mx))) as [per Hper].
  { apply Forall_forall. intros i Hi.
    apply list_elem_of_In, elem_of_py_range in Hi.
    destruct (read_band_lookup satdat i) as (g & Hg & ->); [lia |].
    rewrite Forall_forall in Hall.
    assert (Hc : concat g ≠ []).
    { apply Hall. apply list_elem_of_lookup. eexists. exact Hg. }
    destruct (np_min_nonempty _ Hc) as [mn Hmn].
    destruct (np_max_nonempty _ Hc) as [mx Hmx].
    unfold min2, max2. cbn. rewrite Hmn. cbn. rewrite Hmx. cbn. eauto. }
  rewrite Hper. cbn.
  assert (Hc : concat (concat (read satdat)) ≠ []).
  { unfold read. destruct (bands satdat) as [|g gs]; [congruence |].
    apply Forall_cons in Hall as [Hg _]. cbn [concat].
    rewrite concat_app. destruct (concat g); [congruence | discriminate]. }
  destruct (np_min_nonempty _ Hc) as [mn Hmn].
  destruct (np_max_nonempty _ Hc) as [mx Hmx].
  unfold min3, max3. rewrite Hmn. cbn. rewrite Hmx. cbn. eauto.
Qed.

(** ** The pixel lookup *)

Lemma Qfloor_neg (q : Q) : (q < 0)%Q → Qfloor q < 0.
Proof.
  intros Hq. rewrite Zlt_Qlt.
  eapply Qle_lt_trans; [apply Qfloor_le | exact Hq].
Qed.

Lemma inv_apply_north_west (t : Affine) (k : Q) :
  north_up t → (0 < k)%Q →
  let '(fcol, frow) := inv_apply t (af_c t - k) (af_f t + k) in
  (fcol < 0)%Q ∧ (frow < 0)%Q.
Proof.
  intros (Hb & Hd & Ha & He) Hk. unfold inv_apply, det.
  rewrite Hb, Hd.
  assert (Hia : (0 < / af_a t)%Q) by (apply Qinv_lt_0_compat; exact Ha).
  assert (Hie : (0 < / (- af_e t))%Q) by (apply Qinv_lt_0_compat; lra).
  assert (Hna : ¬ (af_a t == 0)%Q) by lra.
  assert (Hne : ¬ (af_e t == 0)%Q) by lra.
  split.
  - assert (E : ((af_e t * (af_c t - k - af_c t) - 0 * (af_f t + k - af_f t)) /
                 (af_a t * af_e t - 0 * 0) == - (k * / af_a t))%Q)
      by (field; split; assumption).
    rewrite E. nra.
  - assert (E : ((af_a t * (af_f t + k - af_f t) - 0 * (af_c t - k - af_c t)) /
                 (af_a t * af_e t - 0 * 0) == - (k * / (- af_e t)))%Q)
      by (field; split; assumption).
    rewrite E. nra.
Qed.

Lemma index_north_west (ds : Dataset) :
  north_up (transform ds) →
  ∃ r c, index ds (x_coord ds) (y_coord ds) Qfloor = inr (r, c) ∧ r < 0 ∧ c < 0.
Proof.
  intros Hn.
  pose proof (inv_apply_north_west (transform ds) (inject_Z 10000) Hn) as H.
  unfold index, x_coord, y_coord, bounds. cbn [bb_left bb_top].
  destruct Hn as (Hb & Hd & Ha & He).
  destruct (Qeq_bool (det (transform ds)) 0) eqn:Hdet.
  - apply Qeq_bool_eq in Hdet. unfold det in Hdet.
    rewrite Hb, Hd in Hdet. exfalso. nra.
  - destruct (inv_apply _ _ _) as [fcol frow].
    destruct H as [Hc Hr]; [reflexivity |].
    exists (Qfloor frow), (Qfloor fcol). split; [reflexivity |].
    split; apply Qfloor_neg; assumption.
Qed.

(** ** The claims on the array notebooks *)

(** The per-band reads of all band indexes, in order, none raising, give the
    full read. *)
Lemma per_band_reads_give_full_read (ds : Dataset) :
  forR (indexes ds) (read_band ds) = inr (read ds).
Proof.
  pose proof (indexes_bands ds) as H. unfold read.
  induction H as [|i g idxs gs Hi _ IH]; cbn [forR]; [reflexivity |].
  rewrite Hi. cbn. rewrite IH. reflexivity.
Qed.

(** C8: reading the dataset fully and reading it per band agree.  Reading
    every band index from 1 to the band count, in order, raises nowhere and
    yields exactly the arrays of the full read, in the same order; a per-band
    read yields an array exactly for the indexes 1..count, and it is the
    array at that place of the full read.  On a 4-band dataset the cell
    [blue, green, red, nir = satdat.read()] binds the four names, and binds
    them to what the alternative of its comment, [satdat.read(1)] ..
    [satdat.read(4)], binds them to. *)
Theorem read_full_agrees_with_per_band (satdat : Dataset) :
  forR (indexes satdat) (read_band satdat) = inr (read satdat) ∧
  (∀ i g, read_band satdat i = inr g ↔
          1 ≤ i ≤ count satdat ∧ read satdat !! Z.to_nat (i - 1) = Some g) ∧
  (count satdat = 4 →
   ∃ blue green red nir,
     parse_bands satdat = inr (blue, green, red, nir) ∧
     parse_bands_per_band satdat = inr (blue, green, red, nir) ∧
     read satdat = [blue; green; red; nir]).
Proof.
  split; [apply per_band_reads_give_full_read |]. split.
  - intros i g. split.
    + intros H. unfold read_band in H.
      destruct (decide (1 ≤ i ≤ count satdat)) as [Hi|]; [| discriminate].
      split; [exact Hi |]. unfold read.
      destruct (bands satdat !! _) as [g0|] eqn:Hg; [| discriminate].
      injection H as <-. exact Hg.
    + intros [Hi Hg]. destruct (read_band_lookup satdat i Hi) as (g0 & Hg0 & ->).
      rewrite Hg in Hg0. injection Hg0 as <-. reflexivity.
  - intros Hc. unfold parse_bands, parse_bands_per_band, read.
    unfold count in Hc.
    destruct (bands satdat) as [|b [|g [|r [|n [|x l]]]]] eqn:Hb;
      cbn [length] in Hc; try lia.
    exists b, g, r, n. split; [reflexivity |]. split; [| reflexivity].
    assert (H1 : read_band satdat 1 = inr b)
      by (apply (read_band_at satdat 0); rewrite Hb; reflexivity).
    assert (H2 : read_band satdat 2 = inr g)
      by (apply (read_band_at satdat 1); rewrite Hb; reflexivity).
    assert (H3 : read_band satdat 3 = inr r)
      by (apply (read_band_at satdat 2); rewrite Hb; reflexivity).
    assert (H4 : read_band satdat 4 = inr n)
      by (apply (read_band_at satdat 3); rewrite Hb; reflexivity).
    rewrite H1, H2, H3, H4. reflexivity.
Qed.

Lemma read_full_agrees_with_per_band_witness :
  ∃ blue green red nir,
    parse_bands Toy.example_tif = inr (blue, green, red, nir) ∧
    parse_bands_per_band Toy.example_tif = inr (blue, green, red, nir) ∧
    read Toy.example_tif = [blue; green; red; nir].
Proof.
  apply (proj2 (proj2 (read_full_agrees_with_per_band Toy.example_tif))).
  reflexivity.
Defined.

(** With more than four bands the two ways of parsing part: the unpacking
    raises, the per-band reads take the first four. *)
Example parse_bands_five :
  let five := set_bands Toy.example_tif [[[1]]; [[2]]; [[3]]; [[4]]; [[5]]] in
  parse_bands five = inl (ValueError "too many values to unpack (expected 4)") ∧
  parse_bands_per_band five = inr ([[1]], [[2]], [[3]], [[4]]).
Proof. vm_compute. split; reflexivity. Qed.



Lemma toy_integer_dtype : integer_dtype Toy.example_tif.
Proof. unfold integer_dtype. apply list_elem_of_In. cbn. tauto. Qed.


(** C10: in the pixel-lookup cell the world point is
    [(bounds.left - 10000, bounds.top + 10000)], which lies west and north of
    the upper left corner.  On every north-up raster [satdat.index] with
    [math.floor] therefore yields a negative row and a negative column: the
    cell never indexes the bands with two in-range indices; whatever it
    prints, it prints for indices below zero. *)
Theorem pixel_lookup_negative_indices (satdat : Dataset)
    (blue green red nir : Grid) :
  north_up (transform satdat) →
  (∃ r c, index satdat (x_coord satdat) (y_coord satdat) Qfloor = inr (r, c) ∧
          r < 0 ∧ c < 0) ∧
  (∀ row col lines,
      pixel_lookup satdat blue green red nir = inr (row, col, lines) →
      row < 0 ∧ col < 0).
Proof.
  intros Hn. destruct (index_north_west satdat Hn) as (r & c & Hi & Hr & Hc).
  split; [eauto |].
  intros row col lines H. unfold pixel_lookup in H. rewrite Hi in H.
  cbn in H.
  apply res_bind_inr in H as (? & _ & H).
  apply res_bind_inr in H as (? & _ & H).
  apply res_bind_inr in H as (? & _ & H).
  apply res_bind_inr in H as (? & _ & H).
  injection H as <- <- _. auto.
Qed.

Lemma pixel_lookup_negative_indices_witness :
  north_up (transform Toy.example_tif) ∧
  (∃ r c, index Toy.example_tif (x_coord Toy.example_tif)
            (y_coord Toy.example_tif) Qfloor = inr (r, c) ∧ r < 0 ∧ c < 0).
Proof.
  assert (Hn : north_up (transform Toy.example_tif)).
  { unfold north_up. cbn. repeat split. }
  split; [exact Hn |].
  exact (proj1 (pixel_lookup_negative_indices Toy.example_tif
                  (Toy.ramp 100 5 6) (Toy.ramp 200 5 6)
                  (Toy.ramp 300 5 6) (Toy.ramp 400 5 6) Hn)).
Defined.

(** On the small scene the cell wraps around: it prints the pixel at row 3,
    column 4, where the comment asks for the pixel at row 2, column 2. *)
Example pixel_lookup_example :
  pixel_lookup Toy.example_tif (Toy.ramp 100 5 6) (Toy.ramp 200 5 6)
               (Toy.ramp 300 5 6) (Toy.ramp 400 5 6)
    = inr (-2, -2, [PixelLine "Red" 334; PixelLine "Green" 234;
                    PixelLine "Blue" 134; PixelLine "NIR" 434]) ∧
  intended_pixel Toy.example_tif = inr (2, 2) ∧
  getitem2 (Toy.ramp 300 5 6) 2 2 = inr 322.
Proof. vm_compute. repeat split. Qed.

(** On a scene smaller than the offset the cell raises. *)
Example pixel_lookup_raises :
  let small := set_bands Toy.example_tif [[[1]]; [[2]]; [[3]]; [[4]]] in
  pixel_lookup small [[1]] [[2]] [[3]] [[4]]
    = inl (IndexError "index out of bounds for axis").
Proof. vm_compute. reflexivity. Qed.

(** ** Running the cells: what a cell that ends normally has done *)

Lemma bind_ok {A B} (m : M A) (k : A → M B) (w w' : World) (b : B) :
  (m ≫= k) w = (inr b, w') →
  ∃ a w1, m w = (inr a, w1) ∧ k a w1 = (inr b, w').
Proof.
  unfold mbind, m_bind. destruct (m w) as [[e|a] w1]; [discriminate |].
  eauto.
Qed.

Lemma lib_ok {A} (ev : Event) (r : Res A) (w w' : World) (a : A) :
  lib ev r w = (inr a, w') → r = inr a ∧ w' = record_events w [ev].
Proof.
  unfold lib. destruct r as [e|a0]; [discriminate |].
  intros [= -> <-]. auto.
Qed.

Lemma py_print_ok (shape : Z * Z * Z) (w w' : World) :
  py_print shape w = (inr tt, w') → w' = record_events w [EPrint shape].
Proof. unfold py_print. intros [= <-]. reflexivity. Qed.

Ltac world :=
  cbn [files next_id open_handles pending trace record_events set_pending
       h_id h_name h_mode h_ds fst snd] in *.

Section Steps.
Context {L : RasterLib}.

Lemma rasterio_open_ok (name : string) (w w' : World) (h : Handle) :
  rasterio_open name w = (inr h, w') →
  ∃ ds, rio_open (files w) name = inr ds ∧
        h = mkHandle (next_id w) name ModeR ds ∧
        w' = mkWorld (files w) (S (next_id w))
                     ({[next_id w]} ∪ open_handles w) (pending w)
                     (trace w ++ [EOpen name]).
Proof.
  unfold rasterio_open. intros H.
  apply bind_ok in H as (ds & w1 & Hlib & H).
  apply lib_ok in Hlib as [Hds ->].
  unfold attach in H. injection H as <- <-. world. eauto.
Qed.

Lemma rasterio_create_ok (name : string) (kw : Meta) (w w' : World)
    (h : Handle) :
  rasterio_create name kw w = (inr h, w') →
  ∃ ds, rio_create name kw = inr ds ∧
        h = mkHandle (next_id w) name ModeW ds ∧
        w' = mkWorld (files w) (S (next_id w))
                     ({[next_id w]} ∪ open_handles w)
                     (<[next_id w := bands ds]> (pending w))
                     (trace w ++ [ECreate name kw]).
Proof.
  unfold rasterio_create. intros H.
  apply bind_ok in H as (ds & w1 & Hlib & H).
  apply lib_ok in Hlib as [Hds ->].
  unfold attach in H. injection H as <- <-. world. eauto.
Qed.

Lemma with_ok {A} (open : M Handle) (body : Handle → M A) (w w' : World)
    (h : Handle) (a : A) :
  with_ open body w = (inr (h, a), w') →
  ∃ w1 w2, open w = (inr h, w1) ∧ body h w1 = (inr a, w2) ∧
           close h w2 = (inr tt, w').
Proof.
  unfold with_. destruct (open w) as [[e|h0] w1]; [discriminate |].
  destruct (body h0 w1) as [[e|a0] w2] eqn:Hbody; unfold close; cbn;
    [discriminate |].
  intros [= <- <- <-]. eauto.
Qed.

Lemma with_fiona_ok {A} (name : string) (body : list Feature → A)
    (w w' : World) (a : A) :
  with_fiona name body w = (inr a, w') →
  ∃ f, fiona_open name = inr f ∧ a = body f ∧
       w' = record_events w [EFionaOpen name; EFionaClose name].
Proof.
  unfold with_fiona. intros H.
  apply bind_ok in H as (f & w1 & Hlib & H).
  apply lib_ok in Hlib as [Hf ->].
  apply lib_ok in H as [[= <-] ->].
  exists f. unfold record_events. world. rewrite <- app_assoc. auto.
Qed.

Lemma write_ok (dst : Handle) (arr : Array3) (w w' : World) :
  write dst arr w = (inr tt, w') →
  ∃ bs, rio_write (h_ds dst) arr = inr bs ∧
        w' = set_pending (record_events w [EWrite dst arr]) (h_id dst) bs.
Proof.
  unfold write.
  destruct (lib _ _ w) as [[e|bs] w1] eqn:Hlib; [discriminate |].
  apply lib_ok in Hlib as [Hbs ->]. intros [= <-]. eauto.
Qed.

Lemma reproject_ok (source destination : Band) (st : Affine) (sc : CRS)
    (dt : Affine) (dc : string) (w w' : World) :
  reproject source destination st sc dt dc w = (inr tt, w') →
  ∃ g, rio_reproject (h_ds source.1) source.2 (h_ds destination.1)
                     destination.2 st sc dt dc = inr g ∧
       w' = set_pending
              (record_events w [EReproject source destination st sc dt dc])
              (h_id destination.1)
              (<[Z.to_nat (destination.2 - 1) := g]>
                 (pending w !!! h_id destination.1)).
Proof.
  unfold reproject.
  destruct (lib _ _ w) as [[e|g] w1] eqn:Hlib; [discriminate |].
  apply lib_ok in Hlib as [Hg ->]. intros [= <-]. eauto.
Qed.

(** The band loop: one [reproject] call per index, in order, and nothing
    else; files and open datasets are as before, and each resampled band has
    been stored in the destination at its index. *)
Lemma for_reproject_ok (src dst : Handle) (st : Affine) (sc : CRS)
    (dt : Affine) (dc : string) (xs : list Z) (w w' : World) :
  for_ xs (fun bidx => reproject (band src bidx) (band dst bidx) st sc dt dc) w
    = (inr tt, w') →
  ∃ gs,
    Forall2 (fun bidx g =>
               rio_reproject (h_ds src) bidx (h_ds dst) bidx st sc dt dc
               = inr g) xs gs ∧
    files w' = files w ∧ next_id w' = next_id w ∧
    open_handles w' = open_handles w ∧
    trace w' = trace w ++
      map (fun bidx => EReproject (band src bidx) (band dst bidx) st sc dt dc)
          xs ∧
    pending w' !!! h_id dst =
      fold_left (fun bs p => <[Z.to_nat (p.1 - 1) := p.2]> bs) (zip xs gs)
                (pending w !!! h_id dst).
Proof.
  revert w. induction xs as [|x xs IH]; intros w H.
  - cbn in H. injection H as <-. exists []. rewrite app_nil_r.
    repeat split; constructor.
  - cbn [for_] in H. apply bind_ok in H as ([] & w1 & Hx & H).
    apply reproject_ok in Hx as (g & Hg & ->).
    apply IH in H as (gs & Hgs & -> & -> & -> & -> & ->). world.
    exists (g :: gs). rewrite <- app_assoc, lookup_total_insert_eq.
    repeat split; try reflexivity. constructor; assumption.
Qed.

End Steps.

(** Storing band after band fills the destination with the resampled bands. *)
Lemma fold_insert_bands (gs pre suf : list Grid) :
  length gs = length suf →
  fold_left (fun bs (p : Z * Grid) => <[Z.to_nat (p.1 - 1) := p.2]> bs)
            (zip (py_range (Z.of_nat (length pre) + 1)
                           (Z.of_nat (length pre + length suf) + 1)) gs)
            (pre ++ suf)
  = pre ++ gs.
Proof.
  revert pre suf. induction gs as [|g gs IH]; intros pre suf Hlen.
  - destruct suf; [| discriminate].
    destruct (py_range _ _); reflexivity.
  - destruct suf as [|s suf]; [discriminate |]. injection Hlen as Hlen.
    rewrite py_range_succ by (cbn [length]; lia).
    cbn [zip zip_with fold_left fst snd].
    replace (Z.to_nat (Z.of_nat (length pre) + 1 - 1)) with (length pre + 0)%nat
      by lia.
    rewrite insert_app_r. cbn [insert list_insert].
    specialize (IH (pre ++ [g]) suf Hlen).
    rewrite length_app in IH. cbn [length] in IH.
    replace (Z.of_nat (length pre) + 1 + 1)
      with (Z.of_nat (length pre + 1) + 1) by lia.
    rewrite <- !app_assoc in IH. cbn [app] in IH. cbn [length].
    replace (Z.of_nat (length pre + S (length suf)) + 1)
      with (Z.of_nat (length pre + 1 + length suf) + 1) by lia.
    exact IH.
Qed.

(** ** A complete run of the notebook *)

Section Run.
Context {L : RasterLib}.

(** Everything a run that reaches the end of the last cell has done: what
    each library call was asked and answered, what each name is bound to, and
    the world it leaves. *)
Lemma notebook_ok (w w' : World) (g : Globals) :
  notebook w = (inr g, w') →
  ∃ ds0 feats t1 ds_dst bs_dst ds_c ds_r gs ds_p,
    let n := next_id w in
    let files1 := <["clipped.tif" := set_bands ds_dst bs_dst]> (files w) in
    let bs_r :=
      fold_left (fun bs (p : Z * Grid) => <[Z.to_nat (p.1 - 1) := p.2]> bs)
                (zip (py_range 1 (count ds_c + 1)) gs) (bands ds_r) in
    let files2 := <["clipped_4326.tif" := set_bands ds_r bs_r]> files1 in
    let satdat := mkHandle n "example.tif" ModeR ds0 in
    let img := mkHandle (S n) "example.tif" ModeR ds0 in
    let dst := mkHandle (S (S n)) "clipped.tif" ModeW ds_dst in
    let clipped_img := mkHandle (S (S (S n))) "clipped.tif" ModeR ds_c in
    let reprojected :=
      mkHandle (S (S (S (S n)))) "clipped_4326.tif" ModeW ds_r in
    let reproj :=
      mkHandle (S (S (S (S (S n))))) "clipped_4326.tif" ModeR ds_p in
    let meta :=
      dict_update (dict_copy (h_meta img))
        (<["transform" := VAffine t1]>
         (<["height" := VInt (shape3 (g_clipped g)).1.2]>
          (<["width" := VInt (shape3 (g_clipped g)).2]> ∅))) in
    let metadata :=
      dict_update (dict_copy (h_meta clipped_img))
        (<["crs" := VStr target_crs]>
         (<["transform" := VAffine (g_transform g)]>
          (<["width" := VInt (g_width g)]>
           (<["height" := VInt (g_height g)]> ∅)))) in
    (rio_open (files w) "example.tif" = inr ds0 ∧
     fiona_open "aoi.geojson" = inr feats ∧
     rio_mask ds0 (map geometry feats) true = inr (g_clipped g, t1) ∧
     rio_create "clipped.tif" meta = inr ds_dst ∧
     rio_write ds_dst (g_clipped g) = inr bs_dst ∧
     rio_open files1 "clipped.tif" = inr ds_c ∧
     rio_calculate_default_transform
       (crs ds_c) target_crs (width ds_c) (height ds_c) (bounds ds_c)
       = inr (g_transform g, g_width g, g_height g) ∧
     rio_create "clipped_4326.tif" metadata = inr ds_r ∧
     Forall2 (fun bidx b =>
                rio_reproject ds_c bidx ds_r bidx (transform ds_c) (crs ds_c)
                              (g_transform g) target_crs = inr b)
             (py_range 1 (count ds_c + 1)) gs ∧
     rio_open files2 "clipped_4326.tif" = inr ds_p) ∧
    g = mkGlobals satdat (map geometry feats) img (g_clipped g) meta dst
                  clipped_img (g_transform g) (g_width g) (g_height g)
                  metadata reprojected reproj ∧
    files w' = files2 ∧
    open_handles w' =
      {[h_id reproj]} ∪
      ({[h_id reprojected]} ∪
       ({[h_id clipped_img]} ∪
        ({[h_id dst]} ∪
         ({[h_id img]} ∪ ({[h_id satdat]} ∪ open_handles w)) ∖ {[h_id img]})
        ∖ {[h_id dst]})) ∖ {[h_id reprojected]} ∧
    trace w' = trace w ++
      [EOpen "example.tif"; EShow satdat;
       EFionaOpen "aoi.geojson"; EFionaClose "aoi.geojson";
       EOpen "example.tif"; EMask img (map geometry feats) true; EClose img;
       EPrint (shape3 (g_clipped g));
       ECreate "clipped.tif" meta; EWrite dst (g_clipped g); EClose dst;
       EOpen "clipped.tif"; EShow clipped_img;
       ECalc (crs ds_c) target_crs (width ds_c) (height ds_c) (bounds ds_c);
       ECreate "clipped_4326.tif" metadata] ++
      map (fun bidx =>
             EReproject (band clipped_img bidx) (band reprojected bidx)
                        (transform ds_c) (crs ds_c) (g_transform g) target_crs)
          (py_range 1 (count ds_c + 1)) ++
      [EClose reprojected; EOpen "clipped_4326.tif"; EShow reproj].
Proof.
  intros H. unfold notebook in H.
  apply bind_ok in H as (satdat & w1 & Hsat & H).
  apply rasterio_open_ok in Hsat as (ds0 & Hopen0 & -> & ->).
  apply bind_ok in H as ([] & w2 & Hshow0 & H).
  apply lib_ok in Hshow0 as [Hshow0 ->]. world.
  apply bind_ok in H as (aoi & w3 & Haoi & H).
  apply with_fiona_ok in Haoi as (feats & Hfiona & -> & ->). world.
  apply bind_ok in H as ([img [clipped t1]] & w4 & Hmask & H).
  apply with_ok in Hmask as (w5 & w6 & Himg & Hmask & Hclose).
  apply rasterio_open_ok in Himg as (ds1 & Hopen1 & -> & ->). world.
  rewrite Hopen0 in Hopen1. injection Hopen1 as <-.
  apply lib_ok in Hmask as [Hmask ->]. world.
  unfold close in Hclose. injection Hclose as <-. world.
  apply bind_ok in H as ([] & wp & Hprint & H).
  apply py_print_ok in Hprint as ->. world.
  apply bind_ok in H as ([dst []] & w7 & Hdst & H).
  apply with_ok in Hdst as (w8 & w9 & Hcreate & Hwrite & Hclose).
  apply rasterio_create_ok in Hcreate as (ds_dst & Hcreate1 & -> & ->).
  apply write_ok in Hwrite as (bs_dst & Hwrite & ->). world.
  unfold close in Hclose. injection Hclose as <-. world.
  rewrite lookup_total_insert_eq in H.
  apply bind_ok in H as (clipped_img & w10 & Hci & H).
  apply rasterio_open_ok in Hci as (ds_c & Hopen2 & -> & ->). world.
  apply bind_ok in H as ([] & w11 & Hshow1 & H).
  apply lib_ok in Hshow1 as [Hshow1 ->]. world.
  apply bind_ok in H as ([[t2 wd] ht] & w12 & Hcalc & H).
  apply lib_ok in Hcalc as [Hcalc ->]. world.
  apply bind_ok in H as ([reprojected []] & w13 & Hrep & H).
  apply with_ok in Hrep as (w14 & w15 & Hcreate & Hloop & Hclose).
  apply rasterio_create_ok in Hcreate as (ds_r & Hcreate2 & -> & ->).
  apply for_reproject_ok in Hloop as (gs & Hgs & Hf & Hn & Ho & Ht & Hp).
  world.
  unfold close in Hclose. injection Hclose as <-. world.
  rewrite Hf, Hn, Ho, Ht, Hp, lookup_total_insert_eq in H.
  clear Hf Hn Ho Ht Hp.
  apply bind_ok in H as (reproj & w16 & Hrj & H).
  apply rasterio_open_ok in Hrj as (ds_p & Hopen3 & -> & ->). world.
  apply bind_ok in H as ([] & w17 & Hshow2 & H).
  apply lib_ok in Hshow2 as [Hshow2 ->]. world.
  injection H as <- <-.
  exists ds0, feats, t1, ds_dst, bs_dst, ds_c, ds_r, gs, ds_p.
  cbn [g_clipped g_transform g_width g_height h_id]. world.
  unfold h_crs, h_width, h_height, h_bounds, h_transform, h_count in *.
  world.
  split; [repeat split; assumption |].
  repeat split.
  rewrite <- !app_assoc. reflexivity.
Qed.

End Run.

(** ** The claims on the clip-and-reproject notebook *)

Lemma omap_map_None {A B C} (f : B → option C) (g : A → B) (xs : list A) :
  (∀ x, f (g x) = None) → omap f (map g xs) = [].
Proof.
  intros Hf. induction xs as [|x xs IH]; [reflexivity |].
  change (omap f (map g (x :: xs)))
    with (match f (g x) with
          | Some y => y :: omap f (map g xs)
          | None => omap f (map g xs)
          end).
  rewrite Hf. exact IH.
Qed.

Lemma omap_map_Some {A B C} (f : B → option C) (g : A → B) (c : C)
    (xs : list A) :
  (∀ x, f (g x) = Some c) → omap f (map g xs) = replicate (length xs) c.
Proof.
  intros Hf. induction xs as [|x xs IH]; [reflexivity |].
  change (omap f (map g (x :: xs)))
    with (match f (g x) with
          | Some y => y :: omap f (map g xs)
          | None => omap f (map g xs)
          end).
  rewrite Hf, IH. reflexivity.
Qed.

Lemma length_py_range (a b : Z) : length (py_range a b) = Z.to_nat (b - a).
Proof. unfold py_range. rewrite length_map, length_seq. reflexivity. Qed.

Ltac run_of H :=
  let Hlib := fresh "Hlib" in
  destruct (notebook_ok _ _ _ H)
    as (ds0 & feats & t1 & ds_dst & bs_dst & ds_c & ds_r & gs & ds_p &
        Hlib & Hg & Hfiles & Hopen & Htrace);
  cbv zeta in Hlib, Hg, Hfiles, Hopen, Htrace;
  destruct Hlib as (Hopen0 & Hfiona & Hmask & Hcreate1 & Hwrite & Hopen2 &
                    Hcalc & Hcreate2 & Hgs & Hopen3).

Section Claims.
Context {L : RasterLib}.

(** C1: each output file is created with the dimensions and transform the
    library computation returned.  A run that reaches the end creates exactly
    two files: [clipped.tif] with [height] the row count of the clipped array
    ([clipped.shape[1]]), [width] its column count ([clipped.shape[2]]) and
    [transform] the transform [mask] returned; then [clipped_4326.tif] with
    the [width], [height] and [transform] that [calculate_default_transform]
    returned for the clipped dataset. *)
Theorem outputs_created_with_computed_grid (w w' : World) (g : Globals) :
  notebook w = (inr g, w') →
  ∃ evs mask_transform,
    trace w' = trace w ++ evs ∧
    creations evs = [("clipped.tif", g_meta g);
                     ("clipped_4326.tif", g_metadata g)] ∧
    rio_mask (h_ds (g_img g)) (g_aoi g) true
      = inr (g_clipped g, mask_transform) ∧
    g_meta g !! "height" = Some (VInt (shape3 (g_clipped g)).1.2) ∧
    g_meta g !! "width" = Some (VInt (shape3 (g_clipped g)).2) ∧
    g_meta g !! "transform" = Some (VAffine mask_transform) ∧
    rio_calculate_default_transform
      (h_crs (g_clipped_img g)) target_crs
      (h_width (g_clipped_img g)) (h_height (g_clipped_img g))
      (h_bounds (g_clipped_img g))
      = inr (g_transform g, g_width g, g_height g) ∧
    g_metadata g !! "width" = Some (VInt (g_width g)) ∧
    g_metadata g !! "height" = Some (VInt (g_height g)) ∧
    g_metadata g !! "transform" = Some (VAffine (g_transform g)).
Proof.
  intros H. run_of H.
  eexists _, t1. split; [exact Htrace |].
  rewrite Hg. cbn [g_meta g_metadata g_img g_aoi g_clipped g_clipped_img
                   g_transform g_width g_height h_ds].
  unfold h_crs, h_width, h_height, h_bounds. cbn [h_ds].
  split.
  { unfold creations. rewrite !omap_app, omap_map_None by reflexivity.
    reflexivity. }
  repeat split; try assumption; reflexivity.
Qed.


(** C3: each output file is created from a copy of its input's metadata in
    which only the listed fields are updated.  For [clipped.tif] the creation
    options are those of the scene opened for masking except for [transform],
    [height] and [width]; for [clipped_4326.tif] they are those of the clipped
    dataset except for [crs], [transform], [width] and [height].  No key is
    added or dropped, and the driver (the raster container format), the band
    count, the pixel data type and the nodata value are the input's. *)
Theorem outputs_keep_input_metadata (w w' : World) (g : Globals) :
  notebook w = (inr g, w') →
  ∃ evs,
    trace w' = trace w ++ evs ∧
    creations evs = [("clipped.tif", g_meta g);
                     ("clipped_4326.tif", g_metadata g)] ∧
    (∀ k, k ∉ ["transform"; "height"; "width"] →
          g_meta g !! k = h_meta (g_img g) !! k) ∧
    (∀ k, k ∉ ["crs"; "transform"; "width"; "height"] →
          g_metadata g !! k = h_meta (g_clipped_img g) !! k) ∧
    dom (g_meta g) = dom (h_meta (g_img g)) ∧
    dom (g_metadata g) = dom (h_meta (g_clipped_img g)) ∧
    (g_meta g !! "driver" = Some (VStr (driver (h_ds (g_img g)))) ∧
     g_meta g !! "count" = Some (VInt (h_count (g_img g))) ∧
     g_meta g !! "dtype" = Some (VStr (dtype (h_ds (g_img g)))) ∧
     g_meta g !! "nodata"
       = Some (from_option VFloat VNone (nodata (h_ds (g_img g))))) ∧
    (g_metadata g !! "driver"
       = Some (VStr (driver (h_ds (g_clipped_img g)))) ∧
     g_metadata g !! "count" = Some (VInt (h_count (g_clipped_img g))) ∧
     g_metadata g !! "dtype" = Some (VStr (dtype (h_ds (g_clipped_img g)))) ∧
     g_metadata g !! "nodata"
       = Some (from_option VFloat VNone (nodata (h_ds (g_clipped_img g))))).
Proof.
  intros H. run_of H.
  eexists. split; [exact Htrace |].
  rewrite Hg. cbn [g_meta g_metadata g_img g_clipped g_clipped_img
                   g_transform g_width g_height h_ds].
  unfold h_count. cbn [h_ds].
  split.
  { unfold creations. rewrite !omap_app, omap_map_None by reflexivity.
    reflexivity. }
  split.
  { intros k Hk. rewrite !not_elem_of_cons in Hk.
    unfold dict_update, dict_copy. apply lookup_union_r.
    rewrite !lookup_insert_ne by (intros <-; tauto). apply lookup_empty. }
  split.
  { intros k Hk. rewrite !not_elem_of_cons in Hk.
    unfold dict_update, dict_copy. apply lookup_union_r.
    rewrite !lookup_insert_ne by (intros <-; tauto). apply lookup_empty. }
  split; [reflexivity |]. split; [reflexivity |].
  repeat split; reflexivity.
Qed.

(** C6: the area of interest is loaded once, kept as loaded, and consumed
    once.  A run that reaches the end opens one vector file, [aoi.geojson];
    the name [aoi] is bound to the geometries of its features and is still so
    bound at the end; and exactly one call is handed a geometry, the [mask]
    call on the scene, whose shapes argument is [aoi]. *)
Theorem aoi_loaded_once_used_once (w w' : World) (g : Globals) :
  notebook w = (inr g, w') →
  ∃ evs feats,
    trace w' = trace w ++ evs ∧
    vector_loads evs = ["aoi.geojson"] ∧
    fiona_open "aoi.geojson" = inr feats ∧
    g_aoi g = map geometry feats ∧
    omap event_shapes evs = [g_aoi g] ∧
    In (EMask (g_img g) (g_aoi g) true) evs.
Proof.
  intros H. run_of H.
  eexists _, feats. split; [exact Htrace |].
  rewrite Hg. cbn [g_aoi g_img].
  split.
  { unfold vector_loads. rewrite !omap_app, omap_map_None by reflexivity.
    reflexivity. }
  split; [assumption |]. split; [reflexivity |].
  split.
  { rewrite !omap_app, omap_map_None by reflexivity. reflexivity. }
  apply in_or_app. left. cbn. tauto.
Qed.

(** C7: the reprojection step resamples every band of the source.  A run
    that reaches the end creates [clipped_4326.tif] with the band count of the
    clipped dataset, and calls [reproject] once for each band index from 1 to
    that count, in order and no more: band [i] of the clipped dataset into
    band [i] of the destination, from the clipped dataset's transform and CRS
    to the newly computed transform and the target CRS.  When the library
    creates the destination with the band count it was asked for, the file
    written holds exactly the resampled bands, band by band. *)
Theorem every_band_reprojected (w w' : World) (g : Globals) :
  notebook w = (inr g, w') →
  let src := g_clipped_img g in
  let dst := g_reprojected g in
  ∃ evs resampled,
    trace w' = trace w ++ evs ∧
    g_metadata g !! "count" = Some (VInt (h_count src)) ∧
    reprojections evs =
      map (fun i => EReproject (band src i) (band dst i)
                               (h_transform src) (h_crs src)
                               (g_transform g) target_crs)
          (py_range 1 (h_count src + 1)) ∧
    Forall2 (fun i b =>
               rio_reproject (h_ds src) i (h_ds dst) i
                             (h_transform src) (h_crs src)
                             (g_transform g) target_crs = inr b)
            (py_range 1 (h_count src + 1)) resampled ∧
    (h_count dst = h_count src →
     files w' !! "clipped_4326.tif" = Some (set_bands (h_ds dst) resampled)).
Proof.
  intros H. run_of H. cbv zeta.
  eexists _, gs. split; [exact Htrace |].
  rewrite Hg. cbn [g_metadata g_clipped_img g_reprojected g_transform].
  unfold h_count, h_transform, h_crs. cbn [h_ds].
  split; [reflexivity |]. split.
  { unfold reprojections. rewrite !List.filter_app. cbn [List.filter app].
    rewrite app_nil_r. apply forallb_filter_id.
    apply forallb_forall. intros ev Hev.
    apply in_map_iff in Hev as (i & <- & _). reflexivity. }
  split; [exact Hgs |].
  intros Hcount. rewrite Hfiles, lookup_insert_eq. do 2 f_equal.
  pose proof (fold_insert_bands gs [] (bands ds_r)) as Hfold.
  cbn [length app Nat.add] in Hfold.
  unfold count in *.
  replace (Z.of_nat 0 + 1) with 1 in Hfold by lia.
  rewrite Hcount in Hfold. apply Hfold.
  apply Forall2_length in Hgs. rewrite length_py_range in Hgs. lia.
Qed.

(** C2: the pipeline is one fixed sequence of calls, in the order open the
    raster file, compute the mask, write the clipped output file, compute the
    transform and dimensions for the target CRS, reproject, write the
    reprojected output file.  A run that reaches the end has made exactly the
    calls listed, whatever the libraries answered: the scene is opened (once
    to display it, once for masking) and masked; [clipped.tif] is created,
    written and closed; it is opened again and the transform computed;
    [clipped_4326.tif] is created, receives one [reproject] call per band and
    is closed.  Around these the notebook only loads the area of interest,
    prints a shape and displays datasets.  An output file counts as written
    when the dataset opened for writing on it is closed. *)
Theorem pipeline_is_linear (w w' : World) (g : Globals) :
  notebook w = (inr g, w') →
  let src := g_clipped_img g in
  ∃ evs,
    trace w' = trace w ++ evs ∧
    evs =
      [EOpen "example.tif"; EShow (g_satdat g);
       EFionaOpen "aoi.geojson"; EFionaClose "aoi.geojson";
       EOpen "example.tif"; EMask (g_img g) (g_aoi g) true; EClose (g_img g);
       EPrint (shape3 (g_clipped g));
       ECreate "clipped.tif" (g_meta g); EWrite (g_dst g) (g_clipped g);
       EClose (g_dst g);
       EOpen "clipped.tif"; EShow src;
       ECalc (h_crs src) target_crs (h_width src) (h_height src) (h_bounds src);
       ECreate "clipped_4326.tif" (g_metadata g)] ++
      map (fun i => EReproject (band src i) (band (g_reprojected g) i)
                               (h_transform src) (h_crs src)
                               (g_transform g) target_crs)
          (py_range 1 (h_count src + 1)) ++
      [EClose (g_reprojected g); EOpen "clipped_4326.tif";
       EShow (g_reproj g)] ∧
    stages evs =
      [OpenRaster; OpenRaster; ComputeMask; WriteClipped; ComputeTransform] ++
      replicate (Z.to_nat (h_count src)) Reproject ++
      [WriteReprojected].
Proof.
  intros H. run_of H. cbv zeta.
  eexists. split; [exact Htrace |].
  rewrite Hg. cbn [g_satdat g_aoi g_img g_meta g_dst g_clipped g_clipped_img
                   g_metadata g_reprojected g_reproj g_transform].
  unfold h_count, h_transform, h_crs, h_width, h_height, h_bounds.
  cbn [h_ds]. split; [reflexivity |].
  unfold stages. rewrite !omap_app.
  rewrite (omap_map_Some _ _ Reproject) by reflexivity.
  rewrite length_py_range.
  replace (Z.to_nat (count ds_c + 1 - 1)) with (Z.to_nat (count ds_c)) by lia.
  reflexivity.
Qed.

(** C4, as the notebook has it: a dataset opened in a [with] block ([img] for
    the mask, [dst] for [clipped.tif], [reprojected] for [clipped_4326.tif])
    is closed when the block ends, and these are the only datasets the run
    closes; the datasets bound by plain assignment ([satdat], [clipped_img],
    [reproj]) are still open when the last cell has run. *)
Theorem with_blocks_close_assignments_stay_open (w w' : World) (g : Globals) :
  notebook w = (inr g, w') →
  ∃ evs,
    trace w' = trace w ++ evs ∧
    closed_handles evs = [g_img g; g_dst g; g_reprojected g] ∧
    ¬ is_open w' (g_img g) ∧ ¬ is_open w' (g_dst g) ∧
    ¬ is_open w' (g_reprojected g) ∧
    is_open w' (g_satdat g) ∧ is_open w' (g_clipped_img g) ∧
    is_open w' (g_reproj g).
Proof.
  intros H. run_of H.
  eexists. split; [exact Htrace |].
  rewrite Hg. cbn [g_satdat g_img g_dst g_clipped_img g_reprojected g_reproj].
  split.
  { unfold closed_handles. rewrite !omap_app, omap_map_None by reflexivity.
    reflexivity. }
  unfold is_open. rewrite Hopen. cbn [h_id].
  repeat split; set_unfold; lia.
Qed.

End Claims.

(** ** Exceptions *)

Lemma propagates_ret {A} (a : A) : propagates (mret a : M A).
Proof. intros w. exists []. cbn. rewrite app_nil_r. auto. Qed.

Lemma propagates_bind {A B} (m : M A) (k : A → M B) :
  propagates m → (∀ a, propagates (k a)) → propagates (m ≫= k).
Proof.
  intros Hm Hk w. destruct (Hm w) as (evs1 & Ht1 & Hr1).
  unfold mbind, m_bind. destruct (m w) as [[e|a] w1]; cbn [fst snd] in *.
  - exists evs1. auto.
  - destruct (Hk a w1) as (evs2 & Ht2 & Hr2).
    exists (evs1 ++ evs2). split; [rewrite Ht2, Ht1, app_assoc; reflexivity |].
    destruct (k a w1).1 as [e|b].
    + destruct Hr2 as (pre & post & -> & Hpre & Hpost).
      exists (evs1 ++ pre), post. rewrite <- app_assoc.
      split; [reflexivity |]. split; [| assumption].
      apply Forall_app; auto.
    + apply Forall_app; auto.
Qed.

Lemma propagates_lib {A} (ev : Event) (r : Res A) :
  ¬ is_raise ev → propagates (lib ev r).
Proof.
  intros Hev w. unfold lib. destruct r as [e|a]; cbn.
  - exists [ev; ERaised e]. split; [reflexivity |].
    exists [ev], []. repeat split; auto.
  - exists [ev]. split; [reflexivity |]. auto.
Qed.

(** A step that touches neither the trace nor the outcome. *)
Lemma propagates_quiet {A} (m : M A) :
  (∀ w, ∃ a, (m w).1 = inr a ∧ trace (m w).2 = trace w) → propagates m.
Proof.
  intros Hm w. destruct (Hm w) as (a & Ha & Ht).
  exists []. rewrite Ha, Ht, app_nil_r. auto.
Qed.

Lemma propagates_py_print (shape : Z * Z * Z) : propagates (py_print shape).
Proof.
  intros w. exists [EPrint shape]. split; [reflexivity |]. cbn. auto.
Qed.

Lemma propagates_attach (name : string) (mode : Mode) (ds : Dataset) :
  propagates (attach name mode ds).
Proof. apply propagates_quiet. intros w. eexists. split; reflexivity. Qed.

Lemma propagates_with {A} (open : M Handle) (body : Handle → M A) :
  propagates open → (∀ h, propagates (body h)) →
  propagates (with_ open body).
Proof.
  intros Ho Hb w. destruct (Ho w) as (evs1 & Ht1 & Hr1).
  unfold with_. destruct (open w) as [[e|h] w1]; cbn [fst snd] in *.
  - exists evs1. auto.
  - destruct (Hb h w1) as (evs2 & Ht2 & Hr2).
    destruct (body h w1) as [r w2]. unfold close. cbn [fst snd trace] in *.
    exists (evs1 ++ evs2 ++ [EClose h]).
    split; [rewrite Ht2, Ht1, <- !app_assoc; reflexivity |].
    destruct r as [e|a].
    + destruct Hr2 as (pre & post & -> & Hpre & Hpost).
      exists (evs1 ++ pre), (post ++ [EClose h]).
      split; [rewrite <- !app_assoc; reflexivity |].
      split; [apply Forall_app; auto |].
      apply Forall_app. split; [assumption |]. repeat constructor.
    + apply Forall_app. split; [assumption |].
      apply Forall_app. split; [assumption |]. repeat constructor. auto.
Qed.

Lemma propagates_for {A} (xs : list A) (body : A → M unit) :
  (∀ x, propagates (body x)) → propagates (for_ xs body).
Proof.
  intros Hb. induction xs as [|x xs IH]; cbn [for_].
  - apply propagates_ret.
  - apply propagates_bind; auto.
Qed.

(** Storing what the library answered changes neither trace nor outcome. *)
Lemma propagates_store {A} (ev : Event) (r : Res A)
    (store : World → A → World) :
  ¬ is_raise ev → (∀ w a, trace (store w a) = trace w) →
  propagates (fun w => match lib ev r w with
                       | (inl e, w') => (inl e, w')
                       | (inr a, w') => (inr tt, store w' a)
                       end).
Proof.
  intros Hev Hs w. destruct (propagates_lib ev r Hev w) as (evs & Ht & Hr).
  exists evs. destruct (lib ev r w) as [[e|a] w1]; cbn [fst snd] in *.
  - auto.
  - rewrite Hs. auto.
Qed.

Lemma raise_split_unique (pre0 post0 pre post : list Event) (e0 e : Exc) :
  Forall (fun ev => ¬ is_raise ev) pre0 → Forall scope_exit post0 →
  pre0 ++ ERaised e0 :: post0 = pre ++ ERaised e :: post →
  pre = pre0 ∧ e = e0 ∧ post = post0.
Proof.
  intros Hpre Hpost. revert pre.
  induction Hpre as [|x pre0 Hx _ IH]; intros [|y pre] Heq; cbn in Heq.
  - injection Heq as -> ->. auto.
  - injection Heq as <- ->. apply Forall_app in Hpost as [_ Hpost].
    inversion Hpost as [|? ? Hbad _]. destruct Hbad.
  - injection Heq as -> _. destruct Hx. exact I.
  - injection Heq as -> Heq. destruct (IH _ Heq) as (-> & -> & ->). auto.
Qed.

Section Errors.
Context {L : RasterLib}.

Lemma propagates_rasterio_open (name : string) :
  propagates (rasterio_open name).
Proof.
  intros w.
  exact (propagates_bind
           (lib (EOpen name) (rio_open (files w) name))
           (attach name ModeR)
           (propagates_lib (EOpen name) (rio_open (files w) name) (fun H => H))
           (propagates_attach name ModeR) w).
Qed.

Lemma propagates_rasterio_create (name : string) (kw : Meta) :
  propagates (rasterio_create name kw).
Proof.
  apply propagates_bind; [apply propagates_lib; exact (fun H => H) |].
  intros ds. apply propagates_attach.
Qed.

Lemma propagates_with_fiona {A} (name : string) (body : list Feature → A) :
  propagates (with_fiona name body).
Proof.
  apply propagates_bind; [apply propagates_lib; exact (fun H => H) |].
  intros f. apply propagates_lib. exact (fun H => H).
Qed.

Lemma propagates_write (dst : Handle) (arr : Array3) :
  propagates (write dst arr).
Proof.
  apply (propagates_store _ _ (fun w bs => set_pending w (h_id dst) bs));
    [exact (fun H => H) | reflexivity].
Qed.

Lemma propagates_reproject (source destination : Band) (st : Affine)
    (sc : CRS) (dt : Affine) (dc : string) :
  propagates (reproject source destination st sc dt dc).
Proof.
  apply (propagates_store _ _
           (fun w g => set_pending w (h_id destination.1)
                         (<[Z.to_nat (destination.2 - 1) := g]>
                            (pending w !!! h_id destination.1))));
    [exact (fun H => H) | reflexivity].
Qed.

Lemma propagates_notebook : propagates notebook.
Proof.
  unfold notebook.
  apply propagates_bind; [apply propagates_rasterio_open | intros satdat].
  apply propagates_bind; [apply propagates_lib; exact (fun H => H) | intros _].
  apply propagates_bind; [apply propagates_with_fiona | intros aoi].
  apply propagates_bind.
  { apply propagates_with; [apply propagates_rasterio_open |].
    intros img. apply propagates_lib. exact (fun H => H). }
  intros [img [clipped t1]].
  apply propagates_bind; [apply propagates_py_print | intros _].
  apply propagates_bind.
  { apply propagates_with; [apply propagates_rasterio_create |].
    intros dst. apply propagates_write. }
  intros [dst []].
  apply propagates_bind; [apply propagates_rasterio_open | intros clipped_img].
  apply propagates_bind; [apply propagates_lib; exact (fun H => H) | intros _].
  apply propagates_bind; [apply propagates_lib; exact (fun H => H) |].
  intros [[t2 wd] ht].
  apply propagates_bind.
  { apply propagates_with; [apply propagates_rasterio_create |].
    intros reprojected. apply propagates_for.
    intros bidx. apply propagates_reproject. }
  intros [reprojected []].
  apply propagates_bind; [apply propagates_rasterio_open | intros reproj].
  apply propagates_bind; [apply propagates_lib; exact (fun H => H) | intros _].
  apply propagates_ret.
Qed.

(** C5: what a library call raises is what the notebook ends with.  For any
    behaviour of the libraries and any world, the notebook ends with an
    exception [e] exactly when a library call raised [e]; nothing was raised
    before it, and after it no call is made: only the enclosing [with] block
    is left.  So no cell catches, retries or recovers from a library error,
    and the notebook raises nothing of its own. *)
Theorem library_errors_propagate (w : World) :
  ∃ evs,
    trace (notebook w).2 = trace w ++ evs ∧
    (∀ e, (notebook w).1 = inl e ↔ In (ERaised e) evs) ∧
    (∀ pre e post,
        evs = pre ++ ERaised e :: post →
        Forall (fun ev => ¬ is_raise ev) pre ∧ Forall scope_exit post).
Proof.
  destruct (propagates_notebook w) as (evs & Ht & Hr).
  exists evs. split; [exact Ht |].
  destruct (notebook w).1 as [e0|g].
  - destruct Hr as (pre0 & post0 & -> & Hpre & Hpost). split.
    + intros e. split.
      * intros [= <-]. apply in_or_app. right. left. reflexivity.
      * intros Hin. apply in_app_or in Hin as [Hin | [Hin | Hin]].
        -- rewrite Forall_forall in Hpre.
           apply list_elem_of_In, Hpre in Hin. destruct Hin. exact I.
        -- injection Hin as ->. reflexivity.
        -- rewrite Forall_forall in Hpost.
           apply list_elem_of_In, Hpost in Hin. destruct Hin.
    + intros pre e post Heq.
      destruct (raise_split_unique _ _ _ _ _ _ Hpre Hpost Heq)
        as (-> & -> & ->). auto.
  - split.
    + intros e. split; [discriminate |]. intros Hin.
      rewrite Forall_forall in Hr.
      apply list_elem_of_In, Hr in Hin. destruct Hin. exact I.
    + intros pre e post ->. apply Forall_app in Hr as [_ Hr].
      inversion Hr as [|? ? Hbad _]. destruct Hbad. exact I.
Qed.

End Errors.

(** Without the scene the first cell raises and nothing else runs. *)
Example missing_scene :
  notebook Toy.empty_world
  = (inl (Toy.RasterioIOError "example.tif: No such file or directory"),
     record_events Toy.empty_world
       [EOpen "example.tif";
        ERaised (Toy.RasterioIOError
                   "example.tif: No such file or directory")]).
Proof. vm_compute. reflexivity. Qed.

(** When [mask] raises, the [with] block closes the scene and the exception
    goes on: the dataset opened first stays open. *)
Example mask_raises :
  (notebook Toy.far_world).1
    = inl (ValueError "Input shapes do not overlap raster.") ∧
  elements (open_handles (notebook Toy.far_world).2) = [0%nat] ∧
  last (trace (notebook Toy.far_world).2)
    = Some (EClose (mkHandle 1 "example.tif" ModeR Toy.far_tif)).
Proof. vm_compute. repeat split. Qed.

(** ** The claims at the small scene *)

(** On the small scene the notebook runs to the end. *)
Lemma toy_run : ∃ g w', notebook Toy.world = (inr g, w').
Proof.
  assert (Hok : match (notebook Toy.world).1 with
                | inr _ => true
                | inl _ => false
                end = true) by (vm_compute; reflexivity).
  destruct (notebook Toy.world) as [[e|g] w']; [discriminate | eauto].
Defined.

Lemma outputs_created_with_computed_grid_witness :
  ∃ g w', notebook Toy.world = (inr g, w') ∧
    g_meta g !! "height" = Some (VInt (shape3 (g_clipped g)).1.2) ∧
    g_meta g !! "width" = Some (VInt (shape3 (g_clipped g)).2) ∧
    g_metadata g !! "transform" = Some (VAffine (g_transform g)).
Proof.
  destruct toy_run as (g & w' & H). exists g, w'. split; [exact H |].
  destruct (outputs_created_with_computed_grid Toy.world w' g H)
    as (evs & mt & _ & _ & _ & Hh & Hw & _ & _ & _ & _ & Ht).
  exact (conj Hh (conj Hw Ht)).
Defined.

Lemma pipeline_is_linear_witness :
  ∃ g w' evs, notebook Toy.world = (inr g, w') ∧
    trace w' = trace Toy.world ++ evs ∧
    stages evs =
      [OpenRaster; OpenRaster; ComputeMask; WriteClipped; ComputeTransform] ++
      replicate (Z.to_nat (h_count (g_clipped_img g))) Reproject ++
      [WriteReprojected].
Proof.
  destruct toy_run as (g & w' & H).
  destruct (pipeline_is_linear Toy.world w' g H) as (evs & Ht & _ & Hs).
  exists g, w', evs. exact (conj H (conj Ht Hs)).
Defined.

Lemma outputs_keep_input_metadata_witness :
  ∃ g w', notebook Toy.world = (inr g, w') ∧
    g_meta g !! "driver" = h_meta (g_img g) !! "driver" ∧
    g_metadata g !! "count" = h_meta (g_clipped_img g) !! "count".
Proof.
  destruct toy_run as (g & w' & H). exists g, w'. split; [exact H |].
  destruct (outputs_keep_input_metadata Toy.world w' g H)
    as (evs & _ & _ & Hf1 & Hf2 & _).
  clear H.
  split; [apply Hf1 | apply Hf2]; rewrite !not_elem_of_cons;
    repeat split; try (intros [=]); apply not_elem_of_nil.
Defined.

(** C4, as the spec words it, fails: on the small scene three datasets are
    open when the notebook is over. *)
Lemma handles_left_open :
  ¬ handles_scoped (notebook Toy.world).2 ∧
  elements (open_handles (notebook Toy.world).2) = [5; 3; 0]%nat.
Proof.
  assert (He : elements (open_handles (notebook Toy.world).2) = [5; 3; 0]%nat)
    by (vm_compute; reflexivity).
  split; [| exact He].
  unfold handles_scoped. intros Heq.
  pose proof (eq_trans (eq_sym He) (f_equal elements Heq)) as Hbad.
  clear He Heq. rewrite elements_empty in Hbad. discriminate Hbad.
Qed.

Lemma with_blocks_close_assignments_stay_open_witness :
  ∃ g w', notebook Toy.world = (inr g, w') ∧
    ¬ is_open w' (g_img g) ∧ is_open w' (g_satdat g) ∧
    is_open w' (g_clipped_img g).
Proof.
  destruct toy_run as (g & w' & H). exists g, w'. split; [exact H |].
  destruct (with_blocks_close_assignments_stay_open Toy.world w' g H)
    as (evs & _ & _ & Hi & _ & _ & Hs & Hc & _).
  exact (conj Hi (conj Hs Hc)).
Defined.

Lemma aoi_loaded_once_used_once_witness :
  ∃ g w' evs, notebook Toy.world = (inr g, w') ∧
    trace w' = trace Toy.world ++ evs ∧
    vector_loads evs = ["aoi.geojson"] ∧
    omap event_shapes evs = [g_aoi g].
Proof.
  destruct toy_run as (g & w' & H).
  destruct (aoi_loaded_once_used_once Toy.world w' g H)
    as (evs & feats & Ht & Hv & _ & _ & Hs & _).
  exists g, w', evs. exact (conj H (conj Ht (conj Hv Hs))).
Defined.

Lemma every_band_reprojected_witness :
  ∃ g w' resampled, notebook Toy.world = (inr g, w') ∧
    h_count (g_reprojected g) = h_count (g_clipped_img g) ∧
    g_metadata g !! "count" = Some (VInt (h_count (g_clipped_img g))) ∧
    files w' !! "clipped_4326.tif"
      = Some (set_bands (h_ds (g_reprojected g)) resampled).
Proof.
  destruct toy_run as (g & w' & H).
  destruct (every_band_reprojected Toy.world w' g H)
    as (evs & gs & _ & Hc & _ & _ & Hf).
  assert (Hn : match notebook Toy.world with
               | (inr g, _) =>
                   bool_decide (h_count (g_reprojected g)
                                = h_count (g_clipped_img g))
               | _ => false
               end = true) by (vm_compute; reflexivity).
  rewrite H in Hn. apply bool_decide_eq_true in Hn.
  exists g, w', gs. exact (conj H (conj Hn (conj Hc (Hf Hn)))).
Defined.

(** What the run leaves on disk on the small scene. *)
Example toy_outputs :
  bands <$> files (notebook Toy.world).2 !! "clipped_4326.tif"
    = Some [[[111; 112]; [121; 122]]; [[211; 212]; [221; 222]];
            [[311; 312]; [321; 322]]; [[411; 412]; [421; 422]]] ∧
  stages (trace (notebook Toy.world).2)
    = [OpenRaster; OpenRaster; ComputeMask; WriteClipped; ComputeTransform;
       Reproject; Reproject; Reproject; Reproject; WriteReprojected].
Proof. vm_compute. split; reflexivity. Qed.

Lemma library_errors_propagate_witness :
  ∃ evs,
    trace (notebook Toy.far_world).2 = trace Toy.far_world ++ evs ∧
    In (ERaised (ValueError "Input shapes do not overlap raster.")) evs.
Proof.
  destruct (library_errors_propagate Toy.far_world) as (evs & Ht & Hiff & _).
  exists evs. split; [exact Ht |].
  apply Hiff. vm_compute. reflexivity.
Defined.

(** * Further properties of the array notebooks *)

(** X1: on a dataset of an integer pixel type, every line the statistics
    cell prints has its minimum below its maximum, and lies within the
    overall line printed last. *)
Theorem band_stats_within_overall (satdat : Dataset) (out : list Line) :
  integer_dtype satdat →
  band_stats satdat = inr out →
  ∃ mn mx,
    last out = Some (OverallLine mn mx) ∧
    ∀ line, In line out →
            mn ≤ line_min line ∧ line_min line ≤ line_max line ∧
            line_max line ≤ mx.
Proof.
  intros _ H. apply band_stats_inv in H
    as (per & mn & mx & -> & Hlines & Hmn & Hmx).
  exists mn, mx. split; [apply last_snoc |].
  assert (Hmm : mn ≤ mx).
  { pose proof (np_min_In _ _ Hmn) as Hin.
    exact (np_max_ge _ _ Hmx _ Hin). }
  intros line Hin. apply in_app_or in Hin as [Hin | [<- | []]].
  - apply list_elem_of_In, list_elem_of_lookup in Hin as [k Hk].
    destruct (Forall2_lookup_r _ _ _ _ _ Hlines Hk)
      as (i & _ & data & lo & hi & Hd & Hlo & Hhi & ->).
    cbn [line_min line_max].
    pose proof (read_band_In _ _ _ Hd) as Hband.
    pose proof (np_min_In _ _ Hlo) as Hlo_in.
    pose proof (np_max_In _ _ Hhi) as Hhi_in.
    repeat split.
    + apply (np_min_le _ _ Hmn). exact (In_concat_join _ _ _ Hband Hlo_in).
    + exact (np_max_ge _ _ Hhi _ Hlo_in).
    + apply (np_max_ge _ _ Hmx). exact (In_concat_join _ _ _ Hband Hhi_in).
  - cbn [line_min line_max]. lia.
Qed.

(** X3: the band-parsing cell works on 4-band datasets only: it binds
    [blue, green, red, nir] exactly when the band count is 4 and raises a
    [ValueError] on any other count. *)
Theorem parse_bands_needs_four (satdat : Dataset) :
  ((∃ r, parse_bands satdat = inr r) ↔ count satdat = 4) ∧
  (∀ e, parse_bands satdat = inl e →
        exc_class e = "ValueError" ∧ count satdat ≠ 4).
Proof.
  unfold parse_bands, read, count.
  destruct (bands satdat) as [|b [|g [|r [|n [|x l]]]]]; cbn;
    (split; [split; [intros [? H]; (discriminate H || reflexivity)
                    | intros H; (discriminate H || lia || eauto)]
            | intros e H; (discriminate H || (injection H as <-; split;
                                              [reflexivity | lia]))]).
Qed.

Lemma getitem2_negative (g : Grid) (i j v : Z) :
  i < 0 → j < 0 → getitem2 g i j = inr v →
  pixel_at g ((shape2 g).1 + i) ((shape2 g).2 + j) = Some v.
Proof.
  intros Hi Hj H. unfold getitem2 in H.
  apply res_bind_inr in H as (r & Hr & H).
  apply res_bind_inr in H as (c & Hc & H).
  unfold np_axis in Hr, Hc.
  destruct (decide (0 ≤ i < _)) as [|_] in Hr; [lia |].
  destruct (decide (- _ ≤ i < 0)) as [Hi'|] in Hr; [| discriminate].
  destruct (decide (0 ≤ j < _)) as [|_] in Hc; [lia |].
  destruct (decide (- _ ≤ j < 0)) as [Hj'|] in Hc; [| discriminate].
  injection Hr as <-. injection Hc as <-.
  unfold pixel_at. destruct (decide _) as [_|Hn]; [| lia].
  rewrite (Z.add_comm _ i), (Z.add_comm _ j).
  destruct (g !! _) as [line|]; [| discriminate]. cbn.
  destruct (line !! _) as [v0|]; [| discriminate].
  injection H as <-. reflexivity.
Qed.

(** X4: on a north-up raster, whenever the lookup cell prints, it has indexed
    the bands from the end and with the pair of [satdat.index] swapped: with
    [(r, c)] the (row, col) that [index] returned, the value printed for each
    band is the pixel [c] rows before the band's end and [r] columns before
    its line's end. *)
Theorem pixel_lookup_wraps_swapped (satdat : Dataset)
    (blue green red nir : Grid) (r c row col : Z) (lines : list Line) :
  north_up (transform satdat) →
  index satdat (x_coord satdat) (y_coord satdat) Qfloor = inr (r, c) →
  pixel_lookup satdat blue green red nir = inr (row, col, lines) →
  row = c ∧ col = r ∧
  ∃ vr vg vb vn,
    lines = [PixelLine "Red" vr; PixelLine "Green" vg;
             PixelLine "Blue" vb; PixelLine "NIR" vn] ∧
    pixel_at red ((shape2 red).1 + c) ((shape2 red).2 + r) = Some vr ∧
    pixel_at green ((shape2 green).1 + c) ((shape2 green).2 + r) = Some vg ∧
    pixel_at blue ((shape2 blue).1 + c) ((shape2 blue).2 + r) = Some vb ∧
    pixel_at nir ((shape2 nir).1 + c) ((shape2 nir).2 + r) = Some vn.
Proof.
  intros Hn Hi H.
  destruct (index_north_west satdat Hn) as (r0 & c0 & Hi0 & Hr & Hc).
  rewrite Hi in Hi0. injection Hi0 as <- <-.
  unfold pixel_lookup in H. rewrite Hi in H. cbn in H.
  apply res_bind_inr in H as (vr & Hvr & H).
  apply res_bind_inr in H as (vg & Hvg & H).
  apply res_bind_inr in H as (vb & Hvb & H).
  apply res_bind_inr in H as (vn & Hvn & H).
  injection H as <- <- <-.
  split; [reflexivity |]. split; [reflexivity |].
  exists vr, vg, vb, vn. split; [reflexivity |].
  repeat split; apply getitem2_negative; assumption.
Qed.

(** X5: on a dataset whose bands have the dimensions of its header, the
    image-size cell prints the row count as the width and the column count
    as the height. *)
Theorem image_size_swaps_width_and_height (satdat : Dataset)
    (blue green red nir : Grid) :
  conforms satdat → 0 < height satdat →
  parse_bands satdat = inr (blue, green, red, nir) →
  image_size blue = (height satdat, width satdat).
Proof.
  intros Hc Hh H. unfold parse_bands, read in H. unfold conforms in Hc.
  destruct (bands satdat) as [|b [|g [|r [|n [|x l]]]]]; try discriminate.
  injection H as <- <- <- <-.
  apply Forall_cons in Hc as [[Hrows Hcols] _].
  unfold image_size, shape2. cbn [fst snd].
  destruct b as [|line b]; [cbn in Hrows; lia |].
  apply Forall_cons in Hcols as [Hline _]. cbn [hd].
  rewrite Hrows, Hline. reflexivity.
Qed.

(** * Further properties of the clip-and-reproject notebook *)

(** ** Files *)

#[local] Set Warnings "-clear-no-such-hyp".

Lemma writes_only_ret {A} (names : list string) (a : A) :
  writes_only names (mret a : M A).
Proof. intros w. split; [reflexivity | set_solver]. Qed.

(** A step that leaves the files alone. *)
Lemma writes_only_same {A} (names : list string) (m : M A) :
  (∀ w, files (m w).2 = files w) → writes_only names m.
Proof. intros Hm w. rewrite Hm. split; [reflexivity | set_solver]. Qed.

Lemma writes_only_bind {A B} (names : list string) (m : M A) (k : A → M B) :
  writes_only names m → (∀ a, writes_only names (k a)) →
  writes_only names (m ≫= k).
Proof.
  intros Hm Hk w. destruct (Hm w) as [Hf Hd].
  unfold mbind, m_bind. destruct (m w) as [[e|a] w1]; cbn [fst snd] in *.
  - auto.
  - destruct (Hk a w1) as [Hf' Hd']. split.
    + intros name Hn. rewrite Hf', Hf by assumption. reflexivity.
    + set_solver.
Qed.

Lemma writes_only_lib {A} (names : list string) (ev : Event) (r : Res A) :
  writes_only names (lib ev r).
Proof. apply writes_only_same. intros w. unfold lib. destruct r; reflexivity. Qed.

Lemma writes_only_store {A} (names : list string) (ev : Event) (r : Res A)
    (store : World → A → World) :
  (∀ w a, files (store w a) = files w) →
  writes_only names (fun w => match lib ev r w with
                              | (inl e, w') => (inl e, w')
                              | (inr a, w') => (inr tt, store w' a)
                              end).
Proof.
  intros Hs. apply writes_only_same. intros w. unfold lib.
  destruct r; cbn; [reflexivity | rewrite Hs; reflexivity].
Qed.

Lemma writes_only_for {A} (names : list string) (xs : list A)
    (body : A → M unit) :
  (∀ x, writes_only names (body x)) → writes_only names (for_ xs body).
Proof.
  intros Hb. induction xs as [|x xs IH]; cbn [for_].
  - apply writes_only_ret.
  - apply writes_only_bind; auto.
Qed.

(** A [with] block writes at most the file of a dataset opened for
    writing. *)
Lemma writes_only_with {A} (names : list string) (open : M Handle)
    (body : Handle → M A) :
  writes_only names open →
  (∀ w h w1, open w = (inr h, w1) → h_mode h = ModeR ∨ h_name h ∈ names) →
  (∀ h, writes_only names (body h)) →
  writes_only names (with_ open body).
Proof.
  intros Ho Hh Hb w. destruct (Ho w) as [Hf Hd].
  unfold with_. destruct (open w) as [[e|h] w1] eqn:Hopen; cbn [fst snd] in *.
  - auto.
  - destruct (Hb h w1) as [Hf' Hd'].
    destruct (body h w1) as [r w2]. unfold close. cbn [fst snd files] in *.
    destruct (Hh w h w1 Hopen) as [Hm | Hname].
    + rewrite Hm. split.
      * intros name Hn. rewrite Hf', Hf by assumption. reflexivity.
      * set_solver.
    + destruct (h_mode h).
      * split; [intros name Hn; rewrite Hf', Hf by assumption; reflexivity
               | set_solver].
      * split.
        -- intros name Hn. rewrite lookup_insert_ne by (intros <-; auto).
           rewrite Hf', Hf by assumption. reflexivity.
        -- rewrite dom_insert_L. set_solver.
Qed.

Section Files.
Context {L : RasterLib}.

Lemma writes_only_rasterio_open (names : list string) (name : string) :
  writes_only names (rasterio_open name).
Proof.
  apply writes_only_same. intros w. unfold rasterio_open, mbind, m_bind, lib.
  destruct (rio_open (files w) name); reflexivity.
Qed.

Lemma writes_only_rasterio_create (names : list string) (name : string)
    (kw : Meta) :
  writes_only names (rasterio_create name kw).
Proof.
  apply writes_only_same. intros w.
  unfold rasterio_create, mbind, m_bind, lib.
  destruct (rio_create name kw); reflexivity.
Qed.

Lemma rasterio_open_mode (name : string) (w w1 : World) (h : Handle) :
  rasterio_open name w = (inr h, w1) → h_mode h = ModeR.
Proof. intros H. apply rasterio_open_ok in H as (ds & _ & -> & _). reflexivity. Qed.

Lemma rasterio_create_name (name : string) (kw : Meta) (w w1 : World)
    (h : Handle) :
  rasterio_create name kw w = (inr h, w1) → h_name h = name.
Proof.
  intros H. apply rasterio_create_ok in H as (ds & _ & -> & _). reflexivity.
Qed.

Lemma writes_only_notebook : writes_only output_names notebook.
Proof.
  unfold notebook.
  apply writes_only_bind; [apply writes_only_rasterio_open | intros satdat].
  apply writes_only_bind; [apply writes_only_lib | intros _].
  apply writes_only_bind.
  { apply writes_only_bind; [apply writes_only_lib | intros f].
    apply writes_only_lib. }
  intros aoi. apply writes_only_bind.
  { apply writes_only_with; [apply writes_only_rasterio_open | |].
    - intros w h w1 H. left. exact (rasterio_open_mode _ _ _ _ H).
    - intros img. apply writes_only_lib. }
  intros [img [clipped t1]].
  apply writes_only_bind; [apply writes_only_same; reflexivity | intros _].
  apply writes_only_bind.
  { apply writes_only_with; [apply writes_only_rasterio_create | |].
    - intros w h w1 H. right. rewrite (rasterio_create_name _ _ _ _ _ H).
      unfold output_names. set_solver.
    - intros dst. apply writes_only_store. reflexivity. }
  intros [dst []].
  apply writes_only_bind; [apply writes_only_rasterio_open | intros ci].
  apply writes_only_bind; [apply writes_only_lib | intros _].
  apply writes_only_bind; [apply writes_only_lib | intros [[t2 wd] ht]].
  apply writes_only_bind.
  { apply writes_only_with; [apply writes_only_rasterio_create | |].
    - intros w h w1 H. right. rewrite (rasterio_create_name _ _ _ _ _ H).
      unfold output_names. set_solver.
    - intros reprojected. apply writes_only_for. intros bidx.
      apply (writes_only_store _ _ _
               (fun w g => set_pending w (h_id (band reprojected bidx).1)
                  (<[Z.to_nat ((band reprojected bidx).2 - 1) := g]>
                     (pending w !!! h_id (band reprojected bidx).1)))).
      reflexivity. }
  intros [reprojected []].
  apply writes_only_bind; [apply writes_only_rasterio_open | intros reproj].
  apply writes_only_bind; [apply writes_only_lib | intros _].
  apply writes_only_ret.
Qed.

(** X6: whatever the libraries answer and however the notebook ends, it
    writes no file but [clipped.tif] and [clipped_4326.tif]: every other
    file, the scene [example.tif] among them, is as it was, and no file is
    removed. *)
Theorem notebook_writes_only_outputs (w : World) :
  (∀ name, name ≠ "clipped.tif" → name ≠ "clipped_4326.tif" →
           files (notebook w).2 !! name = files w !! name) ∧
  dom (files w) ⊆ dom (files (notebook w).2).
Proof.
  destruct (writes_only_notebook w) as [Hf Hd]. split; [| exact Hd].
  intros name H1 H2. apply Hf. unfold output_names.
  rewrite !not_elem_of_cons. repeat split; auto. apply not_elem_of_nil.
Qed.

End Files.

(** ** Open datasets *)

Lemma leaves_open_weaken {A} (k k' : nat) (still still' : nat → gset nat)
    (m : M A) :
  k = k' → (∀ n, still n ⊆ still' n) → leaves_open k still m →
  leaves_open k' still' m.
Proof.
  intros <- Hs Hm w. destruct (Hm w) as [Ho Hn]. split; [| exact Hn].
  specialize (Hs (next_id w)). set_solver.
Qed.

(** A step that opens and closes nothing. *)
Lemma leaves_open_none {A} (m : M A) :
  (∀ w, open_handles (m w).2 = open_handles w ∧ next_id (m w).2 = next_id w) →
  leaves_open 0 (fun _ => ∅) m.
Proof.
  intros Hm w. destruct (Hm w) as [-> ->]. split; [set_solver |].
  intros _ _. lia.
Qed.

Lemma leaves_open_ret {A} (a : A) : leaves_open 0 (fun _ => ∅) (mret a : M A).
Proof. apply leaves_open_none. intros w. split; reflexivity. Qed.

Lemma leaves_open_lib {A} (ev : Event) (r : Res A) :
  leaves_open 0 (fun _ => ∅) (lib ev r).
Proof.
  apply leaves_open_none. intros w. unfold lib. destruct r; split; reflexivity.
Qed.

Lemma leaves_open_store {A} (ev : Event) (r : Res A)
    (store : World → A → World) :
  (∀ w a, open_handles (store w a) = open_handles w ∧
          next_id (store w a) = next_id w) →
  leaves_open 0 (fun _ => ∅)
    (fun w => match lib ev r w with
              | (inl e, w') => (inl e, w')
              | (inr a, w') => (inr tt, store w' a)
              end).
Proof.
  intros Hs. apply leaves_open_none. intros w. unfold lib.
  destruct r as [e|a]; cbn; [split; reflexivity |].
  destruct (Hs (record_events w [ev]) a) as [-> ->]. split; reflexivity.
Qed.

Lemma leaves_open_bind {A B} (k1 k2 : nat) (s1 s2 : nat → gset nat)
    (m : M A) (k : A → M B) :
  leaves_open k1 s1 m → (∀ a, leaves_open k2 s2 (k a)) →
  leaves_open (k1 + k2) (fun n => s1 n ∪ s2 (n + k1)%nat) (m ≫= k).
Proof.
  intros Hm Hk w. destruct (Hm w) as [Ho Hn].
  unfold mbind, m_bind. destruct (m w) as [[e|a] w1]; cbn [fst snd] in *.
  - split; [set_solver | discriminate].
  - destruct (Hk a w1) as [Ho' Hn']. rewrite (Hn a eq_refl) in Ho', Hn'.
    split; [set_solver |].
    intros b Hb. rewrite (Hn' b Hb). lia.
Qed.

Lemma leaves_open_for {A} (xs : list A) (body : A → M unit) :
  (∀ x, leaves_open 0 (fun _ => ∅) (body x)) →
  leaves_open 0 (fun _ => ∅) (for_ xs body).
Proof.
  intros Hb. induction xs as [|x xs IH]; cbn [for_].
  - apply leaves_open_ret.
  - eapply leaves_open_weaken;
      [| | exact (leaves_open_bind 0 0 _ _ _ _ (Hb x) (fun _ => IH))].
    + reflexivity.
    + intros n. set_solver.
Qed.

(** A dataset opened by plain assignment stays open. *)
Lemma leaves_open_assign (open : M Handle) :
  fresh_open open → leaves_open 1 (fun n => {[n]}) open.
Proof.
  intros Hf w. specialize (Hf w).
  destruct (open w) as [[e|h] w1]; cbn [fst snd].
  - rewrite Hf. split; [set_solver | discriminate].
  - destruct Hf as (_ & Hn & ->). split; [set_solver |].
    intros _ _. lia.
Qed.

(** A dataset opened by a [with] block is closed when the block is left,
    by its end or by an exception. *)
Lemma leaves_open_with {A} (k : nat) (still : nat → gset nat)
    (open : M Handle) (body : Handle → M A) :
  fresh_open open → (∀ h, leaves_open k still (body h)) →
  leaves_open (1 + k) (fun n => still (S n)) (with_ open body).
Proof.
  intros Hf Hb w. specialize (Hf w). unfold with_.
  destruct (open w) as [[e|h] w1]; cbn [fst snd].
  - rewrite Hf. split; [set_solver | discriminate].
  - destruct Hf as (Hid & Hn & Ho). destruct (Hb h w1) as [Ho' Hn'].
    destruct (body h w1) as [r w2]. unfold close.
    cbn [fst snd open_handles next_id] in *.
    rewrite Hn, Ho in Ho'. rewrite Hid. split; [set_solver |].
    intros [h' a] Hr. destruct r as [e|a0]; [discriminate |].
    rewrite (Hn' a0 eq_refl), Hn. lia.
Qed.

Section Handles.
Context {L : RasterLib}.

Lemma fresh_rasterio_open (name : string) : fresh_open (rasterio_open name).
Proof.
  intros w. unfold rasterio_open, mbind, m_bind, lib.
  destruct (rio_open (files w) name); cbn; auto.
Qed.

Lemma fresh_rasterio_create (name : string) (kw : Meta) :
  fresh_open (rasterio_create name kw).
Proof.
  intros w. unfold rasterio_create, mbind, m_bind, lib.
  destruct (rio_create name kw); cbn; auto.
Qed.

Lemma leaves_open_write (dst : Handle) (arr : Array3) :
  leaves_open 0 (fun _ => ∅) (write dst arr).
Proof. apply leaves_open_store. intros w a. split; reflexivity. Qed.

Lemma leaves_open_reproject (source destination : Band) (st : Affine)
    (sc : CRS) (dt : Affine) (dc : string) :
  leaves_open 0 (fun _ => ∅) (reproject source destination st sc dt dc).
Proof.
  apply (leaves_open_store _ _
           (fun w g => set_pending w (h_id destination.1)
                         (<[Z.to_nat (destination.2 - 1) := g]>
                            (pending w !!! h_id destination.1)))).
  intros w a. split; reflexivity.
Qed.

Lemma leaves_open_notebook :
  leaves_open 6 (fun n => {[n; (n + 3)%nat; (n + 5)%nat]}) notebook.
Proof.
  unfold notebook.
  eapply leaves_open_weaken; revgoals.
  - eapply leaves_open_bind;
      [apply leaves_open_assign, fresh_rasterio_open | intros satdat].
    eapply leaves_open_bind; [apply leaves_open_lib | intros _].
    eapply leaves_open_bind.
    { eapply leaves_open_bind; [apply leaves_open_lib | intros f].
      apply leaves_open_lib. }
    intros aoi. eapply leaves_open_bind.
    { apply leaves_open_with; [apply fresh_rasterio_open |].
      intros img. apply leaves_open_lib. }
    intros [img [clipped t1]].
    eapply leaves_open_bind.
    { apply leaves_open_none. intros w. split; reflexivity. }
    intros _. eapply leaves_open_bind.
    { apply leaves_open_with; [apply fresh_rasterio_create |].
      intros dst. apply leaves_open_write. }
    intros [dst []].
    eapply leaves_open_bind;
      [apply leaves_open_assign, fresh_rasterio_open | intros ci].
    eapply leaves_open_bind; [apply leaves_open_lib | intros _].
    eapply leaves_open_bind; [apply leaves_open_lib | intros [[t2 wd] ht]].
    eapply leaves_open_bind.
    { apply leaves_open_with; [apply fresh_rasterio_create |].
      intros reprojected. apply leaves_open_for. intros bidx.
      apply leaves_open_reproject. }
    intros [reprojected []].
    eapply leaves_open_bind;
      [apply leaves_open_assign, fresh_rasterio_open | intros reproj].
    eapply leaves_open_bind; [apply leaves_open_lib | intros _].
    apply leaves_open_ret.
  - intros n. cbn beta.
    replace (n + 1 + 0 + (0 + 0) + (1 + 0) + 0 + (1 + 0))%nat
      with (n + 3)%nat by lia.
    replace (n + 3 + 1 + 0 + 0 + (1 + 0))%nat with (n + 5)%nat by lia.
    set_solver.
  - reflexivity.
Qed.

(** X7: whatever the libraries answer and however the notebook ends, the
    datasets opened in [with] blocks have been closed: beside the datasets
    open before, at most the first, fourth and sixth dataset objects of the
    run ([satdat], [clipped_img], [reproj]) are open afterwards; a run that
    ends normally has created six dataset objects. *)
Theorem with_datasets_closed_in_every_run (w : World) :
  open_handles (notebook w).2 ⊆
    open_handles w ∪
    {[next_id w; (next_id w + 3)%nat; (next_id w + 5)%nat]} ∧
  (∀ g, (notebook w).1 = inr g →
        next_id (notebook w).2 = (next_id w + 6)%nat ∧
        h_id (g_satdat g) = next_id w ∧
        h_id (g_clipped_img g) = (next_id w + 3)%nat ∧
        h_id (g_reproj g) = (next_id w + 5)%nat).
Proof.
  destruct (leaves_open_notebook w) as [Ho Hn]. split; [exact Ho |].
  intros g Hg. split; [exact (Hn g Hg) |].
  destruct (notebook w) as [r w'] eqn:H. cbn [fst] in Hg. subst r.
  destruct (notebook_ok _ _ _ H)
    as (ds0 & feats & t1 & ds_dst & bs_dst & ds_c & ds_r & gs & ds_p &
        _ & Hg & _).
  cbv zeta in Hg. rewrite Hg. cbn [g_satdat g_clipped_img g_reproj h_id].
  lia.
Qed.

End Handles.

(** ** Files written and read back *)

Lemma length_fold_insert (ps : list (Z * Grid)) (bs : list Grid) :
  length (fold_left (fun bs (p : Z * Grid) => <[Z.to_nat (p.1 - 1) := p.2]> bs)
                    ps bs) = length bs.
Proof.
  revert bs. induction ps as [|p ps IH]; intros bs; cbn [fold_left].
  - reflexivity.
  - rewrite IH. apply length_insert.
Qed.

Lemma nodata_value_inj (a b : option Q) :
  from_option VFloat VNone a = from_option VFloat VNone b → a = b.
Proof. destruct a, b; cbn; congruence. Qed.

Section Reread.
Context {L : RasterLib}.

(** X8: when opening a file yields the dataset the file holds, the dataset
    [clipped_img] that the notebook reprojects is the one it has just
    written: the dataset created for [clipped.tif], holding the band data
    [dst.write(clipped)] stored.  [reproj] likewise is the dataset written to
    [clipped_4326.tif], and both files hold these datasets when the notebook
    is over. *)
Theorem notebook_rereads_what_it_wrote (w w' : World) (g : Globals) :
  opens_what_is_stored →
  notebook w = (inr g, w') →
  ∃ stored,
    rio_write (h_ds (g_dst g)) (g_clipped g) = inr stored ∧
    h_ds (g_clipped_img g) = set_bands (h_ds (g_dst g)) stored ∧
    files w' !! "clipped.tif" = Some (h_ds (g_clipped_img g)) ∧
    files w' !! "clipped_4326.tif" = Some (h_ds (g_reproj g)) ∧
    driver (h_ds (g_reproj g)) = driver (h_ds (g_reprojected g)).
Proof.
  intros Hopen H.
  destruct (notebook_ok _ _ _ H)
    as (ds0 & feats & t1 & ds_dst & bs_dst & ds_c & ds_r & gs & ds_p &
        Hlib & Hg & Hfiles & _).
  cbv zeta in Hlib, Hg, Hfiles.
  destruct Hlib as (_ & _ & _ & _ & Hwrite & Hopen2 & _ & _ & _ & Hopen3).
  rewrite (Hopen _ _ _ (lookup_insert_eq _ _ _)) in Hopen2.
  rewrite (Hopen _ _ _ (lookup_insert_eq _ _ _)) in Hopen3.
  injection Hopen2 as <-. injection Hopen3 as <-.
  exists bs_dst. rewrite Hg, Hfiles.
  cbn [g_dst g_clipped g_clipped_img g_reproj g_reprojected h_ds].
  split; [exact Hwrite |]. split; [reflexivity |].
  split; [rewrite lookup_insert_ne by discriminate; apply lookup_insert_eq |].
  split; [apply lookup_insert_eq | reflexivity].
Qed.

(** X9: with libraries that keep files, honour creation options and keep the
    band count on writing, the format survives the whole pipeline: the
    reprojected file has the driver, the pixel data type, the nodata value
    and the band count of the scene the notebook started from, and so has
    the clipped file. *)
Theorem outputs_keep_the_scene_format (w w' : World) (g : Globals) :
  opens_what_is_stored → honours_creation_options → write_keeps_count →
  notebook w = (inr g, w') →
  let scene := h_ds (g_satdat g) in
  ∀ name, name ∈ output_names →
    ∃ out,
      files w' !! name = Some out ∧
      driver out = driver scene ∧ dtype out = dtype scene ∧
      nodata out = nodata scene ∧ count out = count scene.
Proof.
  intros Hopen Hcreate Hwrite H.
  destruct (notebook_ok _ _ _ H)
    as (ds0 & feats & t1 & ds_dst & bs_dst & ds_c & ds_r & gs & ds_p &
        Hlib & Hg & Hfiles & _).
  cbv zeta in Hlib, Hg, Hfiles.
  destruct Hlib as (_ & _ & _ & Hc1 & Hw & Hopen2 & _ & Hc2 & _ & _).
  rewrite (Hopen _ _ _ (lookup_insert_eq _ _ _)) in Hopen2.
  injection Hopen2 as <-.
  apply Hcreate in Hc1 as (Hdrv1 & Hdt1 & Hnd1 & Hnn1 & Hcnt1 & _).
  apply Hcreate in Hc2 as (Hdrv2 & Hdt2 & Hnd2 & Hnn2 & Hcnt2 & _).
  apply Hwrite in Hw.
  assert (E1 : driver ds_dst = driver ds0) by (apply Hdrv1; reflexivity).
  assert (E2 : dtype ds_dst = dtype ds0) by (apply Hdt1; reflexivity).
  assert (E3 : nodata ds_dst = nodata ds0).
  { destruct (nodata ds0) as [q|] eqn:Hq.
    - apply Hnd1. unfold h_meta, meta. cbn [h_ds]. rewrite Hq. reflexivity.
    - apply Hnn1. unfold h_meta, meta. cbn [h_ds]. rewrite Hq. reflexivity. }
  assert (E4 : count ds_dst = count ds0).
  { apply Hcnt1; [reflexivity | unfold count; lia]. }
  assert (E5 : count (set_bands ds_dst bs_dst) = count ds0).
  { rewrite <- E4. unfold count, set_bands. cbn [bands]. rewrite Hw.
    reflexivity. }
  assert (F1 : driver ds_r = driver ds0) by (rewrite <- E1; apply Hdrv2; reflexivity).
  assert (F2 : dtype ds_r = dtype ds0) by (rewrite <- E2; apply Hdt2; reflexivity).
  assert (F3 : nodata ds_r = nodata ds0).
  { rewrite <- E3. destruct (nodata ds_dst) as [q|] eqn:Hq.
    - apply Hnd2. unfold h_meta, meta, set_bands. cbn [h_ds nodata].
      rewrite Hq. reflexivity.
    - apply Hnn2. unfold h_meta, meta, set_bands. cbn [h_ds nodata].
      rewrite Hq. reflexivity. }
  assert (F4 : count ds_r = count ds0).
  { rewrite <- E5. apply Hcnt2; [reflexivity | unfold count; lia]. }
  cbv zeta. rewrite Hg, Hfiles. cbn [g_satdat h_ds].
  intros name Hname. unfold output_names in Hname.
  apply elem_of_cons in Hname as [-> | Hname].
  - exists (set_bands ds_dst bs_dst).
    rewrite lookup_insert_ne by discriminate. rewrite lookup_insert_eq.
    repeat split; assumption.
  - apply list_elem_of_singleton in Hname as ->.
    eexists. rewrite lookup_insert_eq. split; [reflexivity |].
    repeat split; try assumption.
    rewrite <- F4. unfold count, set_bands. cbn [bands].
    rewrite length_fold_insert. reflexivity.
Qed.

(** X10: with libraries that keep files and honour creation options, the grid
    found by one step is the grid the next step works on: the clipped dataset
    that is reprojected has the row and column counts of the clipped array
    and the transform [mask] returned, and that transform is the
    [src_transform] of every [reproject] call; the reprojected dataset is
    created with the dimensions and transform [calculate_default_transform]
    returned. *)
Theorem grid_flows_through_the_files (w w' : World) (g : Globals) :
  opens_what_is_stored → honours_creation_options →
  notebook w = (inr g, w') →
  ∃ mask_transform evs,
    rio_mask (h_ds (g_img g)) (g_aoi g) true
      = inr (g_clipped g, mask_transform) ∧
    h_height (g_clipped_img g) = (shape3 (g_clipped g)).1.2 ∧
    h_width (g_clipped_img g) = (shape3 (g_clipped g)).2 ∧
    h_transform (g_clipped_img g) = mask_transform ∧
    trace w' = trace w ++ evs ∧
    Forall (fun ev => match ev with
                      | EReproject _ _ src_transform _ dst_transform _ =>
                          src_transform = mask_transform ∧
                          dst_transform = g_transform g
                      | _ => True
                      end) evs ∧
    h_width (g_reprojected g) = g_width g ∧
    h_height (g_reprojected g) = g_height g ∧
    h_transform (g_reprojected g) = g_transform g.
Proof.
  intros Hopen Hcreate H.
  destruct (notebook_ok _ _ _ H)
    as (ds0 & feats & t1 & ds_dst & bs_dst & ds_c & ds_r & gs & ds_p &
        Hlib & Hg & _ & _ & Htrace).
  cbv zeta in Hlib, Hg, Htrace.
  destruct Hlib as (_ & _ & Hmask & Hc1 & _ & Hopen2 & _ & Hc2 & _ & _).
  rewrite (Hopen _ _ _ (lookup_insert_eq _ _ _)) in Hopen2.
  injection Hopen2 as <-.
  apply Hcreate in Hc1 as (_ & _ & _ & _ & _ & Hw1 & Hh1 & Ht1).
  apply Hcreate in Hc2 as (_ & _ & _ & _ & _ & Hw2 & Hh2 & Ht2).
  match type of Htrace with _ = _ ++ ?e => exists t1, e end.
  split; [rewrite Hg; exact Hmask |].
  split; [rewrite Hg; apply Hh1; reflexivity |].
  split; [rewrite Hg; apply Hw1; reflexivity |].
  split; [rewrite Hg; apply Ht1; reflexivity |].
  split; [exact Htrace |].
  rewrite Hg.
  cbn [g_img g_aoi g_clipped g_clipped_img g_reprojected g_transform
       g_width g_height].
  unfold h_height, h_width, h_transform. cbn [h_ds].
  split.
  { apply Forall_app. split; [repeat constructor |].
    apply Forall_app. split; [| repeat constructor].
    apply Forall_forall. intros ev Hev.
    apply list_elem_of_In, in_map_iff in Hev as (i & <- & _).
    split; [apply Ht1; reflexivity | reflexivity]. }
  split; [apply Hw2; reflexivity |].
  split; [apply Hh2; reflexivity | apply Ht2; reflexivity].
Qed.

End Reread.

(** * The further properties at the small scene *)

Lemma band_stats_within_overall_witness :
  ∃ mn mx,
    last [BandLine 1 100 145; BandLine 2 200 245; BandLine 3 300 345;
          BandLine 4 400 445; OverallLine 100 445]
      = Some (OverallLine mn mx) ∧
    ∀ line,
      In line [BandLine 1 100 145; BandLine 2 200 245; BandLine 3 300 345;
               BandLine 4 400 445; OverallLine 100 445] →
      mn ≤ line_min line ∧ line_min line ≤ line_max line ∧ line_max line ≤ mx.
Proof.
  apply (band_stats_within_overall Toy.example_tif);
    [exact toy_integer_dtype |].
  vm_compute. reflexivity.
Defined.

Lemma parse_bands_needs_four_witness :
  ∃ r, parse_bands Toy.example_tif = inr r.
Proof.
  apply (proj1 (parse_bands_needs_four Toy.example_tif)). reflexivity.
Defined.

Lemma pixel_lookup_wraps_swapped_witness :
  pixel_at (Toy.ramp 300 5 6) (5 + -2) (6 + -2) = Some 334 ∧
  pixel_at (Toy.ramp 400 5 6) (5 + -2) (6 + -2) = Some 434.
Proof.
  destruct (pixel_lookup_wraps_swapped Toy.example_tif
              (Toy.ramp 100 5 6) (Toy.ramp 200 5 6)
              (Toy.ramp 300 5 6) (Toy.ramp 400 5 6) (-2) (-2) (-2) (-2)
              [PixelLine "Red" 334; PixelLine "Green" 234;
               PixelLine "Blue" 134; PixelLine "NIR" 434])
    as (_ & _ & vr & vg & vb & vn & Hl & Hr & _ & _ & Hn).
  - unfold north_up. cbn. repeat split.
  - vm_compute. reflexivity.
  - vm_compute. reflexivity.
  - injection Hl as <- _ _ <-. exact (conj Hr Hn).
Defined.

Lemma image_size_swaps_width_and_height_witness :
  image_size (Toy.ramp 100 5 6) = (5, 6) ∧
  width Toy.example_tif = 6 ∧ height Toy.example_tif = 5.
Proof.
  split; [| split; reflexivity].
  apply (image_size_swaps_width_and_height Toy.example_tif
           (Toy.ramp 100 5 6) (Toy.ramp 200 5 6)
           (Toy.ramp 300 5 6) (Toy.ramp 400 5 6)).
  - unfold conforms. cbn. repeat constructor.
  - reflexivity.
  - reflexivity.
Defined.

Lemma notebook_writes_only_outputs_witness :
  files (notebook Toy.world).2 !! "example.tif"
    = files Toy.world !! "example.tif".
Proof.
  apply (proj1 (notebook_writes_only_outputs Toy.world)); intros [=].
Defined.

Lemma with_datasets_closed_in_every_run_witness :
  open_handles (notebook Toy.far_world).2 ⊆
    open_handles Toy.far_world ∪ {[0; 3; 5]}%nat.
Proof.
  exact (proj1 (with_datasets_closed_in_every_run Toy.far_world)).
Defined.

(** The small library keeps files, honours creation options and keeps the
    band count on writing. *)
Lemma toy_opens_what_is_stored : opens_what_is_stored (L := Toy.library).
Proof.
  intros fs name ds Hfs. cbn. unfold Toy.open. rewrite Hfs. reflexivity.
Qed.

Lemma toy_honours_creation_options :
  honours_creation_options (L := Toy.library).
Proof.
  intros name kw ds H. cbn in H. unfold Toy.create in H.
  destruct (kw !! "driver") as [[drv| | | | |]|]; try discriminate.
  destruct (kw !! "dtype") as [[dt| | | | |]|]; try discriminate.
  destruct (kw !! "width") as [[|wd| | | |]|]; try discriminate.
  destruct (kw !! "height") as [[|ht| | | |]|]; try discriminate.
  destruct (kw !! "count") as [[|c| | | |]|]; try discriminate.
  destruct (kw !! "transform") as [[| | | |t|]|]; try discriminate.
  injection H as <-. cbn [driver dtype nodata width height transform].
  repeat split; try (intros ? [= <-]; reflexivity).
  - intros q Hq. rewrite Hq. reflexivity.
  - intros Hq. rewrite Hq. reflexivity.
  - intros c0 [= <-] Hc. unfold count, Toy.zeros. cbn [bands].
    rewrite length_replicate. lia.
Qed.

Lemma toy_write_keeps_count : write_keeps_count (L := Toy.library).
Proof.
  intros ds arr stored H. cbn in H. unfold Toy.write_bands in H.
  destruct (decide _) as [Hs|]; [| discriminate]. injection H as <-.
  unfold shape3 in Hs. injection Hs as Hs _ _. unfold count in Hs. lia.
Qed.

Lemma notebook_rereads_what_it_wrote_witness :
  ∃ g w', notebook Toy.world = (inr g, w') ∧
    files w' !! "clipped.tif" = Some (h_ds (g_clipped_img g)) ∧
    files w' !! "clipped_4326.tif" = Some (h_ds (g_reproj g)).
Proof.
  destruct toy_run as (g & w' & H). exists g, w'. split; [exact H |].
  destruct (notebook_rereads_what_it_wrote Toy.world w' g
              toy_opens_what_is_stored H)
    as (stored & _ & _ & H1 & H2 & _).
  exact (conj H1 H2).
Defined.

Lemma outputs_keep_the_scene_format_witness :
  ∃ g w' out, notebook Toy.world = (inr g, w') ∧
    files w' !! "clipped_4326.tif" = Some out ∧
    driver out = driver (h_ds (g_satdat g)) ∧
    count out = count (h_ds (g_satdat g)).
Proof.
  destruct toy_run as (g & w' & H).
  destruct (outputs_keep_the_scene_format Toy.world w' g
              toy_opens_what_is_stored toy_honours_creation_options
              toy_write_keeps_count H "clipped_4326.tif")
    as (out & Hf & Hd & _ & _ & Hc).
  - unfold output_names. apply list_elem_of_In. right. left. reflexivity.
  - exists g, w', out. exact (conj H (conj Hf (conj Hd Hc))).
Defined.

Lemma grid_flows_through_the_files_witness :
  ∃ g w', notebook Toy.world = (inr g, w') ∧
    h_height (g_clipped_img g) = (shape3 (g_clipped g)).1.2 ∧
    h_width (g_reprojected g) = g_width g.
Proof.
  destruct toy_run as (g & w' & H). exists g, w'. split; [exact H |].
  destruct (grid_flows_through_the_files Toy.world w' g
              toy_opens_what_is_stored toy_honours_creation_options H)
    as (t & evs & _ & Hh & _ & _ & _ & _ & Hw & _).
  exact (conj Hh Hw).
Defined.
